(** * FileSure scaffolder: a model of [script.py] and its filesystem effects

    The script creates five directories and thirteen empty files, makes
    [scripts/deploy.sh] executable and prints a report.  Everything it does
    is a filesystem or standard-output effect, so the embedding consists of

    - a small POSIX filesystem: a finite map from paths (component lists
      relative to the working directory) to inodes, with permission bits,
      ownership and a process umask;
    - the system calls the script reaches through [pathlib] and [os]
      ([mkdir], [stat], [utimensat], [open], [chmod], [write]), each
      recording itself in a system-call trace;
    - [Path.mkdir], [Path.is_dir] and [Path.touch] as CPython's [pathlib]
      writes them (3.12), on top of those system calls;
    - [create_project_structure], transcribed statement by statement.

    Scope of the model: the process is unprivileged (no root override of
    permission checks); a file it does not own is checked against the
    "others" permission class (group membership is not modelled); there
    are no symbolic links, no timestamps and no read-only mounts; writes
    to standard output do not fail. *)

From Stdlib Require Import ZArith Ascii String DecimalString.
From stdpp Require Import gmap strings list fin_maps.

Local Open Scope Z_scope.

(** ** Paths *)

(** A path is the list of its components below the working directory;
    [[]] is the working directory itself. *)
Abbreviation path := (list string).

(** Splitting at ['/'], as [PurePosixPath] parses its argument: empty
    components (doubled slashes) and ['.'] components are dropped. *)
Fixpoint split_slash (s cur : string) : list string :=
  match s with
  | EmptyString => [cur]
  | String c s' =>
      if Ascii.eqb c "/"%char then cur :: split_slash s' EmptyString
      else split_slash s' (cur +:+ String c EmptyString)
  end.

Definition parts (s : string) : path :=
  filter (λ c, c ≠ EmptyString ∧ c ≠ "."%string) (split_slash s EmptyString).

(** [Path.parent]: the path without its last component; the working
    directory is its own parent. *)
Definition parent (p : path) : path := removelast p.

(** ** Inodes and permission bits *)

Inductive errno := ENOENT | EEXIST | ENOTDIR | EISDIR | EACCES | EPERM.

#[global] Instance errno_eq_dec : EqDecision errno.
Proof. solve_decision. Defined.

Inductive kind :=
  | Dir
  | File (content : string).

#[global] Instance kind_eq_dec : EqDecision kind.
Proof. solve_decision. Defined.

Record inode := Inode {
  i_kind  : kind;
  i_mode  : Z;      (* permission bits, e.g. 0o755 *)
  i_owned : bool    (* owned by the effective user of the process *)
}.

#[global] Instance inode_eq_dec : EqDecision inode.
Proof. solve_decision. Defined.

(** An octal mode literal: [oct 7 5 5] is [0o755]. *)
Definition oct (u g o : Z) : Z := u * 64 + g * 8 + o.

(** The three permission bits that apply to the process: the owner class
    for its own inodes, the "others" class for the rest. *)
Definition access_class (n : inode) : Z :=
  if i_owned n then Z.shiftr (i_mode n) 6 else i_mode n.

Definition may_exec  (n : inode) : bool := Z.testbit (access_class n) 0.
Definition may_write (n : inode) : bool := Z.testbit (access_class n) 1.
Definition may_read  (n : inode) : bool := Z.testbit (access_class n) 2.

Definition is_dir_inode (n : inode) : bool :=
  match i_kind n with Dir => true | File _ => false end.

(** The mode an inode gets at creation: the requested permission bits
    without those of the umask. *)
Definition creation_mode (mode umask : Z) : Z :=
  Z.land (Z.land mode (Z.lnot umask)) (oct 7 7 7).

(** ** The world: filesystem, umask, standard output, system-call trace *)

Inductive syscall :=
  | SysMkdir (p : path) (mode : Z)
  | SysStat  (p : path)
  | SysUtime (p : path)
  | SysOpen  (p : path) (excl : bool) (mode : Z)
  | SysChmod (p : path) (mode : Z)
  | SysWrite (s : string).

Record world := World {
  w_fs     : gmap path inode;
  w_umask  : Z;
  w_stdout : string;
  w_trace  : list syscall
}.

Definition set_fs (fs : gmap path inode) (w : world) : world :=
  World fs (w_umask w) (w_stdout w) (w_trace w).

Definition log (c : syscall) (w : world) : world :=
  World (w_fs w) (w_umask w) (w_stdout w) (w_trace w ++ [c]).

(** ** Computations that may raise [OSError] *)

Inductive outcome (A : Type) :=
  | Ok (a : A)
  | Raise (e : errno).
Arguments Ok {A} a.
Arguments Raise {A} e.

Definition M (A : Type) : Type := world → outcome A * world.

Definition ret {A} (a : A) : M A := λ w, (Ok a, w).

Definition raise {A} (e : errno) : M A := λ w, (Raise e, w).

Definition bind {A B} (m : M A) (k : A → M B) : M B :=
  λ w, match m w with
       | (Ok a, w') => k a w'
       | (Raise e, w') => (Raise e, w')
       end.

(** [try: body / except OSError as e: handler e] *)
Definition try_except {A} (body : M A) (handler : errno → M A) : M A :=
  λ w, match body w with
       | (Ok a, w') => (Ok a, w')
       | (Raise e, w') => handler e w'
       end.

Declare Scope M_scope.
Delimit Scope M_scope with M.
Notation "x <- m ;; k" := (bind m (λ x, k))
  (at level 100, m at next level, right associativity) : M_scope.
Notation "m ;; k" := (bind m (λ _, k))
  (at level 100, right associativity) : M_scope.
Local Open Scope M_scope.

(** [for x in xs: body x] *)
Fixpoint for_each {A} (xs : list A) (body : A → M unit) : M unit :=
  match xs with
  | [] => ret tt
  | x :: xs' => body x ;; for_each xs' body
  end.

(** ** The kernel: path resolution and system calls on the filesystem *)

(** Resolution walks the components from the working directory: every
    directory passed through must be a directory ([ENOTDIR]) that the
    process may search ([EACCES]), and every component must exist
    ([ENOENT]). *)
Fixpoint walk (fs : gmap path inode) (cur : path) (n : inode) (rest : path)
  : outcome inode :=
  match rest with
  | [] => Ok n
  | c :: rest' =>
      match i_kind n with
      | File _ => Raise ENOTDIR
      | Dir =>
          if may_exec n then
            match fs !! (cur ++ [c]) with
            | None => Raise ENOENT
            | Some n' => walk fs (cur ++ [c]) n' rest'
            end
          else Raise EACCES
      end
  end.

Definition namei (fs : gmap path inode) (p : path) : outcome inode :=
  match fs !! ([] : path) with
  | None => Raise ENOENT
  | Some cwd => walk fs [] cwd p
  end.

(** Resolution of the directory a new entry would go into. *)
Definition namei_parent (fs : gmap path inode) (p : path) : outcome inode :=
  match namei fs (parent p) with
  | Raise e => Raise e
  | Ok d =>
      match i_kind d with
      | File _ => Raise ENOTDIR
      | Dir => if may_exec d then Ok d else Raise EACCES
      end
  end.

(** mkdir(2): an existing entry is reported ([EEXIST]) before the write
    permission of the parent is looked at. *)
Definition sys_mkdir (fs : gmap path inode) (umask : Z) (p : path) (mode : Z)
  : outcome (gmap path inode) :=
  match namei_parent fs p with
  | Raise e => Raise e
  | Ok d =>
      match fs !! p with
      | Some _ => Raise EEXIST
      | None =>
          if may_write d
          then Ok (<[p := Inode Dir (creation_mode mode umask) true]> fs)
          else Raise EACCES
      end
  end.

(** stat(2) *)
Definition sys_stat (fs : gmap path inode) (p : path) : outcome inode :=
  namei fs p.

(** utimensat(2) with both times "now": allowed to the owner and to
    whoever may write the file.  Timestamps are not part of the model, so
    a successful call leaves the filesystem as it is. *)
Definition sys_utime_now (fs : gmap path inode) (p : path) : outcome unit :=
  match namei fs p with
  | Raise e => Raise e
  | Ok n => if i_owned n || may_write n then Ok tt else Raise EACCES
  end.

(** open(2) with [O_CREAT | O_WRONLY] (and [O_EXCL] when [excl]), followed
    by close(2).  There is no [O_TRUNC]: an existing file keeps its
    contents. *)
Definition sys_open_creat_wronly (fs : gmap path inode) (umask : Z) (p : path)
    (excl : bool) (mode : Z) : outcome (gmap path inode) :=
  match namei_parent fs p with
  | Raise e => Raise e
  | Ok d =>
      match fs !! p with
      | Some n =>
          if excl then Raise EEXIST
          else match i_kind n with
               | Dir => Raise EISDIR
               | File _ => if may_write n then Ok fs else Raise EACCES
               end
      | None =>
          if may_write d
          then Ok (<[p := Inode (File EmptyString) (creation_mode mode umask) true]> fs)
          else Raise EACCES
      end
  end.

(** chmod(2): only the owner may change the mode. *)
Definition sys_chmod (fs : gmap path inode) (p : path) (mode : Z)
  : outcome (gmap path inode) :=
  match namei fs p with
  | Raise e => Raise e
  | Ok n =>
      if i_owned n
      then Ok (<[p := Inode (i_kind n) (Z.land mode (oct 7 7 7)) (i_owned n)]> fs)
      else Raise EPERM
  end.

(** ** The [os] module *)

Definition lift_fs (c : syscall)
    (f : gmap path inode → Z → outcome (gmap path inode)) : M unit :=
  λ w, let w1 := log c w in
       match f (w_fs w1) (w_umask w1) with
       | Ok fs' => (Ok tt, set_fs fs' w1)
       | Raise e => (Raise e, w1)
       end.

Definition lift_query {A} (c : syscall) (f : gmap path inode → outcome A) : M A :=
  λ w, let w1 := log c w in (f (w_fs w1), w1).

Definition os_mkdir (p : path) (mode : Z) : M unit :=
  lift_fs (SysMkdir p mode) (λ fs um, sys_mkdir fs um p mode).

Definition os_stat (p : path) : M inode :=
  lift_query (SysStat p) (λ fs, sys_stat fs p).

Definition os_utime (p : path) : M unit :=
  lift_query (SysUtime p) (λ fs, sys_utime_now fs p).

Definition os_open_close (p : path) (excl : bool) (mode : Z) : M unit :=
  lift_fs (SysOpen p excl mode) (λ fs um, sys_open_creat_wronly fs um p excl mode).

Definition os_chmod (p : string) (mode : Z) : M unit :=
  lift_fs (SysChmod (parts p) mode) (λ fs _, sys_chmod fs (parts p) mode).

(** [print(s)]: [s] and a newline go to standard output. *)
Definition newline : string := String (Ascii.ascii_of_nat 10) EmptyString.

Definition print (s : string) : M unit :=
  λ w, (Ok tt,
        World (w_fs w) (w_umask w) (w_stdout w +:+ s +:+ newline)
              (w_trace w ++ [SysWrite (s +:+ newline)])).

(** ** [pathlib] *)

(** [_ignore_error]: the errors [Path.is_dir] turns into [False]. *)
Definition ignore_error (e : errno) : bool :=
  match e with ENOENT | ENOTDIR => true | _ => false end.

(** [Path.is_dir]: [S_ISDIR(self.stat().st_mode)], [False] when the path
    does not exist; other errors propagate. *)
Definition Path_is_dir (self : path) : M bool :=
  try_except
    (n <- os_stat self ;; ret (is_dir_inode n))
    (λ e, if ignore_error e then ret false else raise e).

(** [Path.mkdir(mode, parents, exist_ok)]:
<<
    try:
        os.mkdir(self, mode)
    except FileNotFoundError:
        if not parents or self.parent == self:
            raise
        self.parent.mkdir(parents=True, exist_ok=True)
        self.mkdir(mode, parents=False, exist_ok=exist_ok)
    except OSError:
        if not exist_ok or not self.is_dir():
            raise
>>
    The recursion goes to the parent, a shorter path; [depth] bounds it
    and [Path_mkdir] starts it at the number of components, which is
    never used up ([Path_mkdir_rec_depth] below). *)
Fixpoint Path_mkdir_rec (depth : nat) (self : path) (mode : Z)
    (parents exist_ok : bool) : M unit :=
  try_except (os_mkdir self mode)
    (λ e,
       match e with
       | ENOENT =>
           if negb parents || bool_decide (parent self = self) then raise ENOENT
           else match depth with
                | O => raise ENOENT
                | S d =>
                    Path_mkdir_rec d (parent self) (oct 7 7 7) true true ;;
                    Path_mkdir_rec d self mode false exist_ok
                end
       | _ =>
           if negb exist_ok then raise e
           else (isdir <- Path_is_dir self ;;
                 if negb isdir then raise e else ret tt)
       end).

Definition Path_mkdir (self : string) (parents exist_ok : bool) : M unit :=
  Path_mkdir_rec (length (parts self)) (parts self) (oct 7 7 7) parents exist_ok.

(** [Path.touch(mode=0o666, exist_ok=True)]:
<<
    if exist_ok:
        try:
            os.utime(self, None)
        except OSError:
            pass
        else:
            return
    flags = os.O_CREAT | os.O_WRONLY
    if not exist_ok:
        flags |= os.O_EXCL
    fd = os.open(self, flags, mode)
    os.close(fd)
>> *)
Definition Path_touch_at (self : path) (mode : Z) (exist_ok : bool) : M unit :=
  bumped <- (if exist_ok
             then try_except (os_utime self ;; ret true) (λ _, ret false)
             else ret false) ;;
  if (bumped : bool) then ret tt
  else os_open_close self (negb exist_ok) mode.

Definition Path_touch (self : string) : M unit :=
  Path_touch_at (parts self) (oct 6 6 6) true.

(** ** The script *)

(** [f"{n}"] for a list length. *)
Definition str_of_nat (n : nat) : string :=
  NilEmpty.string_of_uint (Nat.to_uint n).

Definition directories : list string :=
  [ "api"; "worker"; "k8s"; "scripts"; ".github/workflows" ]%string.

Definition files_to_create : list string :=
  [ "api/Dockerfile";
    "worker/Dockerfile";
    "k8s/01-namespace-config.yaml";
    "k8s/02-mongodb.yaml";
    "k8s/03-api-service.yaml";
    "k8s/04-keda-scaledjob.yaml";
    "k8s/05-prometheus.yaml";
    "k8s/06-grafana.yaml";
    ".github/workflows/ci-cd.yml";
    "scripts/deploy.sh";
    "env.example";
    "docker-compose.dev.yml";
    "Makefile" ]%string.

Definition create_project_structure : M unit :=
  for_each directories (λ directory,
    Path_mkdir directory true true) ;;
  for_each files_to_create (λ file_path,
    Path_touch file_path ;;
    print ("Created: " +:+ file_path)) ;;
  os_chmod "scripts/deploy.sh" (oct 7 5 5) ;;
  print (newline +:+ "Created " +:+ str_of_nat (length files_to_create)
         +:+ " files and " +:+ str_of_nat (length directories)
         +:+ " directories") ;;
  print "You can now copy the specific code content into each file.".

(** [if __name__ == "__main__": create_project_structure()]: the exit
    status of the interpreter is 0 when the call returns and 1 when an
    exception reaches the top level. *)
Definition main (w : world) : Z * world :=
  match create_project_structure w with
  | (Ok _, w') => (0, w')
  | (Raise _, w') => (1, w')
  end.

(** * Vocabulary of the properties *)

(** ** Relations between the world before and the world after *)

(** [respects R m]: whatever [m] does, returning or raising, the world it
    leaves is [R]-related to the one it started in. *)
Definition respects {A} (R : relation world) (m : M A) : Prop :=
  ∀ w r w', m w = (r, w') → R w w'.

(** [scripts/deploy.sh], as a path. *)
Definition deploy : path := parts "scripts/deploy.sh".

(** The inodes the script can bring into being: a directory, at a
    manifest directory or one of its ancestors, made with mode [0o777]
    less the umask; or an empty regular file, at a manifest file, made
    with mode [0o666] less the umask.  Both belong to the process. *)
Definition new_dir (um : Z) : inode :=
  Inode Dir (creation_mode (oct 7 7 7) um) true.

Definition new_file (um : Z) : inode :=
  Inode (File EmptyString) (creation_mode (oct 6 6 6) um) true.

Definition created (um : Z) (q : path) (n : inode) : Prop :=
  (n = new_dir um ∧ ∃ d, d ∈ directories ∧ q `prefix_of` parts d) ∨
  (n = new_file um ∧ ∃ f, f ∈ files_to_create ∧ q = parts f).

(** [grows w w']: from [w] to [w'] the filesystem only gained entries,
    each of them [created]; the umask is the same.  This is what the two
    loops do. *)
Record grows (w w' : world) : Prop := Grows {
  grows_umask : w_umask w' = w_umask w;
  grows_fs    : w_fs w ⊆ w_fs w';
  grows_new   : ∀ q n, w_fs w' !! q = Some n → w_fs w !! q = None →
                       created (w_umask w) q n
}.

(** [settles w w']: what any stretch of the run, finished or aborted, can
    have done to the filesystem.  Existing inodes keep their kind (hence
    their contents) and owner, and their mode too unless they are
    [scripts/deploy.sh]; new inodes are [created] ones, except that
    [scripts/deploy.sh] may have had its mode changed since. *)
Record settles (w w' : world) : Prop := Settles {
  settles_umask : w_umask w' = w_umask w;
  settles_old : ∀ q n, w_fs w !! q = Some n →
      ∃ n', w_fs w' !! q = Some n' ∧ i_kind n' = i_kind n ∧
            i_owned n' = i_owned n ∧ (q ≠ deploy → n' = n);
  settles_new : ∀ q n', w_fs w' !! q = Some n' → w_fs w !! q = None →
      if decide (q = deploy)
      then i_kind n' = File EmptyString ∧ i_owned n' = true
      else created (w_umask w) q n'
}.

(** [quiet w w']: nothing was printed. *)
Definition quiet (w w' : world) : Prop := w_stdout w' = w_stdout w.

(** [traced P w w']: the system calls issued from [w] to [w'] all satisfy
    [P]. *)
Definition traced (P : syscall → bool) (w w' : world) : Prop :=
  ∃ t, w_trace w' = w_trace w ++ t ∧ Forall (λ c, P c = true) t.

(** ** States of the filesystem *)

(** An inode [utimensat] accepts: the process owns it or may write it. *)
Definition touchable (n : inode) : bool := i_owned n || may_write n.

(** What every run that returned leaves behind: the manifest directories
    are directories, the manifest files exist and may be touched again,
    and [scripts/deploy.sh] belongs to the process with mode [0o755]. *)
Record scaffolded (fs : gmap path inode) : Prop := Scaffolded {
  scaffolded_dirs : ∀ d, d ∈ directories →
      ∃ n, namei fs (parts d) = Ok n ∧ i_kind n = Dir;
  scaffolded_files : ∀ f, f ∈ files_to_create →
      ∃ n, namei fs (parts f) = Ok n ∧ touchable n = true;
  scaffolded_deploy :
      ∃ n, namei fs deploy = Ok n ∧ i_owned n = true ∧ i_mode n = oct 7 5 5
}.

(** A directory the process can enter and write to. *)
Definition good (n : inode) : Prop :=
  i_kind n = Dir ∧ may_exec n = true ∧ may_write n = true.

(** The umask leaves the owner's write and search bits alone (as the
    usual [0o022] and [0o077] do), so the process can use the
    directories it makes. *)
Definition umask_ok (um : Z) : bool :=
  negb (Z.testbit um 6) && negb (Z.testbit um 7).

(** An empty working directory that the process may enter and write to,
    under a umask that leaves it the use of its own directories. *)
Definition clean (w : world) : Prop :=
  ∃ cwd, w_fs w = {[ [] := cwd ]} ∧ good cwd ∧ umask_ok (w_umask w) = true.

(** States in which nothing stands in the way of the script: the working
    directory is [cwd]; everything below it belongs to the process; and
    whatever sits at a manifest directory, or on the way to one, is a
    directory the process may enter and write to.  A clean state is
    tidy, and so is every state the script goes through from one. *)
Definition tidy (cwd : inode) (um : Z) (w : world) : Prop :=
  w_umask w = um ∧ w_fs w !! ([] : path) = Some cwd ∧
  ∀ q n, w_fs w !! q = Some n → q ≠ [] →
    i_owned n = true ∧
    ∀ d, d ∈ directories → q `prefix_of` parts d → good n.

(** The files are touched in states where the directories are there. *)
Definition furnished (cwd : inode) (um : Z) (w : world) : Prop :=
  tidy cwd um w ∧ ∀ d, d ∈ directories → ∃ n, namei (w_fs w) (parts d) = Ok n.

(** ** The report *)

Definition created_line (file_path : string) : string :=
  "Created: " +:+ file_path.

Definition summary_line (files dirs : nat) : string :=
  "Created " +:+ str_of_nat files +:+ " files and " +:+ str_of_nat dirs
  +:+ " directories".

Definition usage_hint : string :=
  "You can now copy the specific code content into each file.".

Definition created_text (files : list string) : string :=
  foldr (λ f acc, created_line f +:+ newline +:+ acc) EmptyString files.

(** Everything a complete run prints. *)
Definition report : string :=
  created_text files_to_create
  +:+ newline +:+ summary_line (length files_to_create) (length directories)
  +:+ newline +:+ usage_hint +:+ newline.

(** [str.splitlines], for the newline character. *)
Fixpoint lines_go (s cur : string) : list string :=
  match s with
  | EmptyString => match cur with EmptyString => [] | _ => [cur] end
  | String c s' =>
      if Ascii.eqb c (Ascii.ascii_of_nat 10) then cur :: lines_go s' EmptyString
      else lines_go s' (cur +:+ String c EmptyString)
  end.

Definition lines (s : string) : list string := lines_go s EmptyString.

(** [str.startswith] *)
Fixpoint starts_with (pre s : string) : bool :=
  match pre with
  | EmptyString => true
  | String a pre' =>
      match s with
      | EmptyString => false
      | String b s' => Ascii.eqb a b && starts_with pre' s'
      end
  end.

(** The report as the specification words it: the [Created: ...] lines
    followed at once by the summary line and the usage hint. *)
Definition report_as_specified (w' : world) : Prop :=
  lines (w_stdout w') =
    (created_line <$> files_to_create)
    ++ [ summary_line (length files_to_create) (length directories); usage_hint ].

(** ** System calls and steps *)

(** The four kinds of calls, one per stage of the script. *)
Definition is_dir_call (c : syscall) : bool :=
  match c with SysMkdir _ _ | SysStat _ => true | _ => false end.

Definition is_file_call (c : syscall) : bool :=
  match c with
  | SysUtime _ | SysOpen _ _ _ => true
  | SysWrite s => starts_with "Created: " s
  | _ => false
  end.

Definition is_chmod_call (c : syscall) : bool :=
  match c with SysChmod _ _ => true | _ => false end.

Definition is_summary_call (c : syscall) : bool :=
  match c with SysWrite s => negb (starts_with "Created: " s) | _ => false end.

(** The calls the script makes, one after the other, as a list: the body
    of [create_project_structure] has no [try], no branch and no loop
    other than the two over the manifest. *)
Definition script_steps : list (M unit) :=
  ((λ directory, Path_mkdir directory true true) <$> directories)
  ++ concat ((λ file_path, [ Path_touch file_path;
                             print ("Created: " +:+ file_path) ])
             <$> files_to_create)
  ++ [ os_chmod "scripts/deploy.sh" (oct 7 5 5);
       print (newline +:+ "Created " +:+ str_of_nat (length files_to_create)
              +:+ " files and " +:+ str_of_nat (length directories)
              +:+ " directories");
       print "You can now copy the specific code content into each file." ].

(** Steps in sequence, stopping at the first that raises. *)
Definition run_steps (steps : list (M unit)) : M unit :=
  for_each steps (λ step, step).

(** ** Four starting points *)

(** An empty working directory with mode [0o755], umask [0o022]. *)
Definition clean_world : world :=
  World {[ [] := Inode Dir (oct 7 5 5) true ]} (oct 0 2 2) EmptyString [].

(** [k8s/02-mongodb.yaml] is there beforehand, with contents
    ["placeholder"]. *)
Definition placeholder_world : world :=
  World (<[ ["k8s"; "02-mongodb.yaml"]%string :=
              Inode (File "placeholder") (oct 6 4 4) true ]>
         (<[ ["k8s"]%string := Inode Dir (oct 7 5 5) true ]>
          {[ [] := Inode Dir (oct 7 5 5) true ]}))
        (oct 0 2 2) EmptyString [].

(** [scripts/deploy.sh] is there beforehand, with mode [0o600]. *)
Definition deploy_600_world : world :=
  World (<[ ["scripts"; "deploy.sh"]%string :=
              Inode (File "#!/bin/sh") (oct 6 0 0) true ]>
         (<[ ["scripts"]%string := Inode Dir (oct 7 5 5) true ]>
          {[ [] := Inode Dir (oct 7 5 5) true ]}))
        (oct 0 2 2) EmptyString [].

(** An empty working directory with mode [0o555]: read-only. *)
Definition read_only_world : world :=
  World {[ [] := Inode Dir (oct 5 5 5) true ]} (oct 0 2 2) EmptyString [].

(** ** Three more starting points *)

(** [worker] is there beforehand, as a regular file: a manifest
    directory path is taken. *)
Definition blocked_world : world :=
  World (<[ ["worker"%string] := Inode (File "notes") (oct 6 4 4) true ]>
         {[ [] := Inode Dir (oct 7 5 5) true ]})
        (oct 0 2 2) EmptyString [].

(** [scripts/deploy.sh] is there beforehand, writable by everybody, but
    it and [scripts] belong to somebody else. *)
Definition foreign_deploy_world : world :=
  World (<[ ["scripts"; "deploy.sh"]%string :=
              Inode (File EmptyString) (oct 6 6 6) false ]>
         (<[ ["scripts"]%string := Inode Dir (oct 7 7 7) false ]>
          {[ [] := Inode Dir (oct 7 5 5) true ]}))
        (oct 0 2 2) EmptyString [].

(** [Makefile] is there beforehand, as a directory: a manifest file path
    is taken. *)
Definition makefile_dir_world : world :=
  World (<[ ["Makefile"%string] := Inode Dir (oct 7 5 5) true ]>
         {[ [] := Inode Dir (oct 7 5 5) true ]})
        (oct 0 2 2) EmptyString [].

(** ** The calls of a run that finds everything in place *)

(** For each directory a [mkdir] that fails and the [stat] of [is_dir];
    for each file a [utimensat] and the write of its line; then the
    [chmod] and the summary. *)
Definition rerun_trace : list syscall :=
  concat ((λ d, [ SysMkdir (parts d) (oct 7 7 7); SysStat (parts d) ])
          <$> directories)
  ++ concat ((λ f, [ SysUtime (parts f);
                     SysWrite (created_line f +:+ newline) ])
             <$> files_to_create)
  ++ [ SysChmod deploy (oct 7 5 5);
       SysWrite (newline
                 +:+ summary_line (length files_to_create) (length directories)
                 +:+ newline);
       SysWrite (usage_hint +:+ newline) ].

Definition is_open_call (c : syscall) : bool :=
  match c with SysOpen _ _ _ => true | _ => false end.

(** ** The empty directory, whatever the umask *)

(** An empty working directory that the process may enter and write to;
    nothing is asked of the umask. *)
Definition empty_writable (w : world) : Prop :=
  ∃ cwd, w_fs w = {[ [] := cwd ]} ∧ good cwd.

(** C1 as the specification words it: from every empty working
    directory the run leaves the 5 directories and the 13 empty files in
    place and prints the report. *)
Definition scaffolds_every_empty_directory : Prop :=
  ∀ w r w',
    empty_writable w → create_project_structure w = (r, w') →
    (∀ d, d ∈ directories →
       ∃ n, sys_stat (w_fs w') (parts d) = Ok n ∧ i_kind n = Dir) ∧
    (∀ f, f ∈ files_to_create →
       ∃ n, sys_stat (w_fs w') (parts f) = Ok n ∧ i_kind n = File EmptyString) ∧
    w_stdout w' = w_stdout w +:+ report.

(** An empty working directory with mode [0o755], under umask [0o222]:
    what the process makes it may not write to. *)
Definition umask_222_world : world :=
  World {[ [] := Inode Dir (oct 7 5 5) true ]} (oct 2 2 2) EmptyString [].

(** ** Where new entries can go *)

(** A directory in which the process can make entries: it may search it
    and write to it. *)
Definition usable (n : inode) : bool := may_exec n && may_write n.

(** [rooted w w']: the filesystem grew, and, when the umask takes the
    owner's write or search bit, every new entry went into a directory
    that was already there in [w]. *)
Record rooted (w w' : world) : Prop := Rooted {
  rooted_grows : grows w w';
  rooted_new : umask_ok (w_umask w) = false →
    ∀ q n, w_fs w' !! q = Some n → w_fs w !! q = None →
      ∃ d, w_fs w !! parent q = Some d ∧ usable d = true
}.

(** * Path resolution *)

Section resolution.
Implicit Types (fs : gmap path inode) (p q : path) (n d : inode).

Lemma parent_snoc q (c : string) : parent (q ++ [c]) = q.
Proof. apply removelast_last. Qed.

Lemma walk_app fs cur n a b :
  walk fs cur n (a ++ b) =
  match walk fs cur n a with
  | Ok m => walk fs (cur ++ a) m b
  | Raise e => Raise e
  end.
Proof.
  revert cur n. induction a as [|c a IH]; intros cur n; simpl.
  - by rewrite app_nil_r.
  - destruct (i_kind n); [|done].
    destruct (may_exec n); [|done].
    destruct (fs !! (cur ++ [c])) as [n'|]; [|done].
    rewrite IH. by rewrite <- app_assoc.
Qed.

(** Resolution of [q/c] is resolution of [q] followed by one lookup. *)
Lemma namei_snoc fs q c :
  namei fs (q ++ [c]) =
  match namei_parent fs (q ++ [c]) with
  | Ok d => match fs !! (q ++ [c]) with
            | Some n => Ok n
            | None => Raise ENOENT
            end
  | Raise e => Raise e
  end.
Proof.
  unfold namei_parent. rewrite parent_snoc. unfold namei.
  destruct (fs !! ([] : path)) as [cwd|]; [|done].
  rewrite walk_app. destruct (walk fs [] cwd q) as [d|e]; [|done].
  simpl. destruct (i_kind d); [|done].
  destruct (may_exec d); [|done].
  by destruct (fs !! (q ++ [c])).
Qed.

Lemma namei_nil fs :
  namei fs [] = match fs !! ([] : path) with Some n => Ok n | None => Raise ENOENT end.
Proof. unfold namei. by destruct (fs !! ([] : path)). Qed.

Lemma namei_parent_Ok fs p d :
  namei_parent fs p = Ok d →
  namei fs (parent p) = Ok d ∧ i_kind d = Dir ∧ may_exec d = true.
Proof.
  unfold namei_parent. destruct (namei fs (parent p)) as [d'|]; [|done].
  destruct (i_kind d') eqn:Hk; [|done].
  destruct (may_exec d') eqn:Hx; [|done].
  intros [= ->]. done.
Qed.

Lemma namei_parent_intro fs p d :
  namei fs (parent p) = Ok d → i_kind d = Dir → may_exec d = true →
  namei_parent fs p = Ok d.
Proof. unfold namei_parent. by intros -> -> ->. Qed.

(** What resolves is in the map, at that path. *)
Lemma namei_lookup fs p n : namei fs p = Ok n → fs !! p = Some n.
Proof.
  destruct p as [|c p _] using rev_ind.
  - rewrite namei_nil. by destruct (fs !! ([] : path)); intros [= ->].
  - rewrite namei_snoc. destruct (namei_parent fs (p ++ [c])); [|done].
    by destruct (fs !! (p ++ [c])); intros [= ->].
Qed.

(** A resolved path has a resolved, searchable parent directory. *)
Lemma namei_Ok_parent fs p n :
  namei fs p = Ok n → p ≠ [] → ∃ d, namei_parent fs p = Ok d.
Proof.
  destruct p as [|c p _] using rev_ind; [done|].
  rewrite namei_snoc. destruct (namei_parent fs (p ++ [c])); [|done]. eauto.
Qed.

Lemma namei_child fs p d n :
  p ≠ [] → namei_parent fs p = Ok d → fs !! p = Some n → namei fs p = Ok n.
Proof.
  destruct p as [|c p _] using rev_ind; [done|].
  intros _ Hd Hn. by rewrite namei_snoc, Hd, Hn.
Qed.

(** Resolution only reads the prefixes of the path. *)
Lemma namei_ext fs fs' p :
  (∀ q, q `prefix_of` p → fs' !! q = fs !! q) → namei fs' p = namei fs p.
Proof.
  induction p as [|c p IH] using rev_ind; intros Hq.
  - rewrite !namei_nil. by rewrite Hq.
  - rewrite !namei_snoc. unfold namei_parent. rewrite parent_snoc.
    rewrite IH, (Hq (p ++ [c])); [done..|].
    intros q Hpre. apply Hq. by apply prefix_app_r.
Qed.

(** Adding entries does not disturb what already resolves. *)
Lemma namei_mono fs fs' p n :
  fs ⊆ fs' → namei fs p = Ok n → namei fs' p = Ok n.
Proof.
  intros Hsub. revert n. induction p as [|c p IH] using rev_ind; intros n.
  - rewrite !namei_nil. destruct (fs !! ([] : path)) as [m|] eqn:Hm; [|done].
    by rewrite (lookup_weaken _ _ _ _ Hm Hsub).
  - rewrite !namei_snoc. unfold namei_parent. rewrite parent_snoc.
    destruct (namei fs p) as [d|] eqn:Hd; [|done].
    rewrite (IH d eq_refl).
    destruct (i_kind d); [|done]. destruct (may_exec d); [|done].
    destruct (fs !! (p ++ [c])) as [m|] eqn:Hm; [|done].
    by rewrite (lookup_weaken _ _ _ _ Hm Hsub).
Qed.

Lemma namei_parent_mono fs fs' p d :
  fs ⊆ fs' → namei_parent fs p = Ok d → namei_parent fs' p = Ok d.
Proof.
  intros Hsub [Hn [Hk Hx]]%namei_parent_Ok.
  apply namei_parent_intro; [|done..]. by eapply namei_mono.
Qed.
End resolution.

Lemma parent_prefix (p : path) : parent p `prefix_of` p.
Proof.
  unfold parent. destruct p as [|c p _] using rev_ind; [done|].
  rewrite removelast_last. by apply prefix_app_r.
Qed.

Lemma parent_length (p : path) : p ≠ [] → S (length (parent p)) = length p.
Proof.
  unfold parent. destruct p as [|c p _] using rev_ind; [done|]. intros _.
  rewrite removelast_last, length_app. simpl. lia.
Qed.

(** * Reasoning about computations *)

Section respects.
Context (R : relation world) `{!PreOrder R}.

Lemma respects_ret {A} (a : A) : respects R (ret a).
Proof. intros w r w' [= _ <-]. reflexivity. Qed.

Lemma respects_raise {A} e : respects R (raise e : M A).
Proof. intros w r w' [= _ <-]. reflexivity. Qed.

Lemma respects_bind {A B} (m : M A) (k : A → M B) :
  respects R m → (∀ a, respects R (k a)) → respects R (bind m k).
Proof.
  intros Hm Hk w r w'. unfold bind.
  destruct (m w) as [[a|e] w1] eqn:E.
  - intros Hr. etrans; [by eapply Hm | by eapply Hk].
  - intros [= _ <-]. by eapply Hm.
Qed.

Lemma respects_try_except {A} (m : M A) h :
  respects R m → (∀ e, respects R (h e)) → respects R (try_except m h).
Proof.
  intros Hm Hh w r w'. unfold try_except.
  destruct (m w) as [[a|e] w1] eqn:E.
  - intros [= _ <-]. by eapply Hm.
  - intros Hr. etrans; [by eapply Hm | by eapply Hh].
Qed.

Lemma respects_for_each {A} (xs : list A) body :
  (∀ x, x ∈ xs → respects R (body x)) → respects R (for_each xs body).
Proof.
  induction xs as [|x xs IH]; intros Hb; simpl.
  - apply respects_ret.
  - apply respects_bind; [apply Hb; left|intros _; apply IH].
    intros y Hy. apply Hb. by right.
Qed.

Lemma respects_if {A} (b : bool) (m1 m2 : M A) :
  respects R m1 → respects R m2 → respects R (if b then m1 else m2).
Proof. by destruct b. Qed.
End respects.

Lemma respects_weaken {A} (R R' : relation world) (m : M A) :
  (∀ w w', R w w' → R' w w') → respects R m → respects R' m.
Proof. intros HR Hm w r w' E. eapply HR, Hm, E. Qed.

(** Inversion of a sequence that returned. *)
Lemma bind_Ok_inv {A B} (m : M A) (k : A → M B) w b w' :
  bind m k w = (Ok b, w') → ∃ a w1, m w = (Ok a, w1) ∧ k a w1 = (Ok b, w').
Proof.
  unfold bind. destruct (m w) as [[a|e] w1]; [|done]. intros Hk. eauto.
Qed.

Lemma bind_Ok {A B} (m : M A) (k : A → M B) w a w1 :
  m w = (Ok a, w1) → bind m k w = k a w1.
Proof. unfold bind. by intros ->. Qed.

Lemma bind_Raise {A B} (m : M A) (k : A → M B) w e w1 :
  m w = (Raise e, w1) → bind m k w = (Raise e, w1).
Proof. unfold bind. by intros ->. Qed.

(** The monad laws the proofs use, pointwise. *)
Lemma bind_assoc {A B C} (m : M A) (k : A → M B) (h : B → M C) w :
  bind (bind m k) h w = bind m (λ a, bind (k a) h) w.
Proof. unfold bind. by destruct (m w) as [[a|e] w1]. Qed.

Lemma bind_ext {A B} (m : M A) (k k' : A → M B) w :
  (∀ a v, k a v = k' a v) → bind m k w = bind m k' w.
Proof. intros Hk. unfold bind. by destruct (m w) as [[a|e] w1]. Qed.

Lemma bind_ret_r (m : M unit) w : bind m (λ _, ret tt) w = m w.
Proof. unfold bind, ret. by destruct (m w) as [[[]|e] w1]. Qed.

Lemma bind_cong {A B} (m m' : M A) (k k' : A → M B) w :
  (∀ v, m v = m' v) → (∀ a v, k a v = k' a v) → bind m k w = bind m' k' w.
Proof. intros Hm Hk. unfold bind. rewrite Hm. by destruct (m' w) as [[a|e] w1]. Qed.

(** A loop that returned ran every body to its end; what a body
    establishes ([Q]) and later steps keep ([R]) holds at the end. *)
Lemma for_each_post {A} (R : relation world) `{!PreOrder R}
    (Q : A → world → Prop) (xs : list A) body :
  (∀ x, x ∈ xs → respects R (body x)) →
  (∀ x w w', x ∈ xs → body x w = (Ok tt, w') → Q x w') →
  (∀ x w w', Q x w → R w w' → Q x w') →
  ∀ w w', for_each xs body w = (Ok tt, w') → ∀ x, x ∈ xs → Q x w'.
Proof.
  intros HR HQ Hst. induction xs as [|x xs IH]; intros w w' Hrun y Hy.
  - by apply elem_of_nil in Hy.
  - simpl in Hrun. apply bind_Ok_inv in Hrun as ([] & w1 & Hx & Hrest).
    apply elem_of_cons in Hy as [->|Hy].
    + eapply Hst; [eapply HQ; [left|done]|].
      eapply (respects_for_each R); [|done].
      intros z Hz. apply HR. by right.
    + eapply IH; [| |done..].
      * intros z Hz. apply HR. by right.
      * intros z v v' Hz. apply HQ. by right.
Qed.

(** A loop whose bodies all return under an invariant returns. *)
Lemma for_each_returns {A} (I : world → Prop) (xs : list A) body :
  (∀ x w, x ∈ xs → I w → ∃ w', body x w = (Ok tt, w') ∧ I w') →
  ∀ w, I w → ∃ w', for_each xs body w = (Ok tt, w') ∧ I w'.
Proof.
  induction xs as [|x xs IH]; intros Hb w Hw; simpl.
  - by exists w.
  - destruct (Hb x w) as (w1 & Hx & Hw1); [left|done|].
    rewrite (bind_Ok _ _ _ _ _ Hx). apply IH; [|done].
    intros z v Hz. apply Hb. by right.
Qed.

(** The [pathlib] methods respect whatever the system calls under them
    respect. *)
Section pathlib_respects.
Context (R : relation world) `{!PreOrder R}.

Lemma Path_is_dir_respects p :
  respects R (os_stat p) → respects R (Path_is_dir p).
Proof.
  intros Hstat. unfold Path_is_dir. apply (respects_try_except R).
  - apply (respects_bind R); [done|]. intros n. apply (respects_ret R).
  - intros e. destruct (ignore_error e);
      [apply (respects_ret R)|apply (respects_raise R)].
Qed.

Lemma Path_mkdir_rec_respects depth p mode parents exist_ok :
  (∀ q m, q `prefix_of` p → m = mode ∨ m = oct 7 7 7 → respects R (os_mkdir q m)) →
  (∀ q, q `prefix_of` p → respects R (os_stat q)) →
  respects R (Path_mkdir_rec depth p mode parents exist_ok).
Proof.
  revert p mode parents exist_ok.
  induction depth as [|depth IH]; intros p mode parents exist_ok Hmk Hst; simpl;
    (apply (respects_try_except R); [apply Hmk; [done|by left]|]);
    intros e.
  all: assert (respects R
         (if negb exist_ok then raise e
          else (isdir <- Path_is_dir p ;; if negb isdir then raise e else ret tt)))
       as Hother.
  all: try (apply (respects_if R);
            [apply (respects_raise R)
            |apply (respects_bind R); [by apply Path_is_dir_respects, Hst|];
             intros b; apply (respects_if R);
             [apply (respects_raise R)|apply (respects_ret R)]]).
  all: destruct e; try exact Hother.
  all: apply (respects_if R); [apply (respects_raise R)|].
  - apply (respects_raise R).
  - assert (parent p `prefix_of` p) as Hpre.
    { unfold parent. destruct p as [|c p _] using rev_ind; [done|].
      rewrite removelast_last. by apply prefix_app_r. }
    apply (respects_bind R); [|intros _]; apply IH.
    + intros q m Hq [->| ->]; (apply Hmk; [by etrans|by right]).
    + intros q Hq. apply Hst. by etrans.
    + intros q m Hq [->| ->]; apply Hmk; auto.
    + done.
Qed.

Lemma Path_touch_at_respects p mode exist_ok :
  respects R (os_utime p) →
  respects R (os_open_close p (negb exist_ok) mode) →
  respects R (Path_touch_at p mode exist_ok).
Proof.
  intros Hut Hop. unfold Path_touch_at. apply (respects_bind R).
  - apply (respects_if R); [|apply (respects_ret R)].
    apply (respects_try_except R); [|intros e; apply (respects_ret R)].
    apply (respects_bind R); [done|]. intros _. apply (respects_ret R).
  - intros [|]; [apply (respects_ret R)|done].
Qed.
End pathlib_respects.

(** * What the library calls do to the filesystem *)

#[global] Instance grows_preorder : PreOrder grows.
Proof.
  split.
  - intros w. split; [done..|]. intros q n ? ?; congruence.
  - intros w1 w2 w3 [Hu1 Hs1 Hn1] [Hu2 Hs2 Hn2]. split.
    + congruence.
    + by etrans.
    + intros q n H3 H1. destruct (w_fs w2 !! q) as [m|] eqn:H2.
      * rewrite (lookup_weaken _ _ _ _ H2 Hs2) in H3. injection H3 as ->.
        by apply Hn1.
      * rewrite <- Hu1. by apply Hn2.
Qed.

Lemma grows_same_fs w w' :
  w_umask w' = w_umask w → w_fs w' = w_fs w → grows w w'.
Proof. intros Hu Hf. split; [done|by rewrite Hf|]. rewrite Hf. congruence. Qed.

Lemma grows_insert w w' p n :
  w_umask w' = w_umask w → w_fs w !! p = None →
  w_fs w' = <[p := n]> (w_fs w) → created (w_umask w) p n → grows w w'.
Proof.
  intros Hu Hp Hf Hc. split; [done| |].
  - rewrite Hf. by apply insert_subseteq.
  - intros q m. rewrite Hf. destruct (decide (p = q)) as [->|Hne].
    + rewrite lookup_insert_eq. by intros [= <-] _.
    + rewrite lookup_insert_ne by done. congruence.
Qed.

Lemma lift_query_grows {A} (c : syscall) (f : gmap path inode → outcome A) :
  respects grows (lift_query c f).
Proof. intros w r w' [= _ <-]. by apply grows_same_fs. Qed.

Lemma print_grows s : respects grows (print s).
Proof. intros w r w' [= _ <-]. by apply grows_same_fs. Qed.

Lemma os_mkdir_grows p :
  (∃ d, d ∈ directories ∧ p `prefix_of` parts d) →
  respects grows (os_mkdir p (oct 7 7 7)).
Proof.
  intros Hp w r w'. unfold os_mkdir, lift_fs, sys_mkdir. simpl.
  destruct (namei_parent (w_fs w) p) as [d|e]; [|intros [= _ <-]; by apply grows_same_fs].
  destruct (w_fs w !! p) eqn:Hl; [intros [= _ <-]; by apply grows_same_fs|].
  destruct (may_write d); intros [= _ <-]; [|by apply grows_same_fs].
  eapply grows_insert; [done..|]. left. done.
Qed.

Lemma os_open_close_grows f :
  f ∈ files_to_create →
  respects grows (os_open_close (parts f) false (oct 6 6 6)).
Proof.
  intros Hf w r w'. unfold os_open_close, lift_fs, sys_open_creat_wronly. simpl.
  destruct (namei_parent (w_fs w) (parts f)) as [d|e];
    [|intros [= _ <-]; by apply grows_same_fs].
  destruct (w_fs w !! parts f) as [n|] eqn:Hl.
  - destruct (i_kind n); [intros [= _ <-]; by apply grows_same_fs|].
    destruct (may_write n); intros [= _ <-]; by apply grows_same_fs.
  - destruct (may_write d); intros [= _ <-]; [|by apply grows_same_fs].
    eapply grows_insert; [done..|]. right. eauto.
Qed.

Lemma Path_mkdir_grows d :
  d ∈ directories → respects grows (Path_mkdir d true true).
Proof.
  intros Hd. apply (Path_mkdir_rec_respects grows).
  - intros q m Hq Hm. assert (m = oct 7 7 7) as -> by (by destruct Hm).
    apply os_mkdir_grows. eauto.
  - intros q _. apply lift_query_grows.
Qed.

Lemma Path_touch_grows f :
  f ∈ files_to_create → respects grows (Path_touch f).
Proof.
  intros Hf. apply (Path_touch_at_respects grows).
  - apply lift_query_grows.
  - by apply os_open_close_grows.
Qed.

(** ** Equations of the library calls *)

Lemma os_mkdir_eq p mode w :
  os_mkdir p mode w =
  match sys_mkdir (w_fs w) (w_umask w) p mode with
  | Ok fs' => (Ok tt, set_fs fs' (log (SysMkdir p mode) w))
  | Raise e => (Raise e, log (SysMkdir p mode) w)
  end.
Proof. reflexivity. Qed.

Lemma Path_is_dir_eq p w :
  Path_is_dir p w =
  (match namei (w_fs w) p with
   | Ok n => Ok (is_dir_inode n)
   | Raise e => if ignore_error e then Ok false else Raise e
   end, log (SysStat p) w).
Proof.
  unfold Path_is_dir, try_except, bind, os_stat, lift_query, sys_stat. simpl.
  destruct (namei (w_fs w) p) as [n|e]; [done|]. by destruct (ignore_error e).
Qed.

Lemma Path_mkdir_rec_eq depth self mode parents exist_ok w :
  Path_mkdir_rec depth self mode parents exist_ok w =
  match os_mkdir self mode w with
  | (Ok a, w1) => (Ok a, w1)
  | (Raise ENOENT, w1) =>
      if negb parents || bool_decide (parent self = self) then (Raise ENOENT, w1)
      else match depth with
           | O => (Raise ENOENT, w1)
           | S d =>
               (Path_mkdir_rec d (parent self) (oct 7 7 7) true true ;;
                Path_mkdir_rec d self mode false exist_ok) w1
           end
  | (Raise e, w1) =>
      if negb exist_ok then (Raise e, w1)
      else (isdir <- Path_is_dir self ;;
            if negb isdir then raise e else ret tt) w1
  end.
Proof.
  destruct depth; simpl; unfold try_except;
    destruct (os_mkdir self mode w) as [[a|e] w1]; try done;
    destruct e;
    try (by destruct (negb parents || bool_decide (parent self = self)));
    by destruct (negb exist_ok).
Qed.

(** The depth bound of [Path_mkdir_rec] is never used up: any bound of at
    least the number of components gives the same result (and without
    [parents] the bound is not looked at). *)
Lemma Path_mkdir_rec_depth d1 d2 p mode parents exist_ok w :
  parents = false ∨ ((length p ≤ d1)%nat ∧ (length p ≤ d2)%nat) →
  Path_mkdir_rec d1 p mode parents exist_ok w
  = Path_mkdir_rec d2 p mode parents exist_ok w.
Proof.
  revert d2 p mode parents exist_ok w.
  induction d1 as [|d1 IH]; intros d2 p mode parents exist_ok w Hd;
    rewrite !(Path_mkdir_rec_eq _ p);
    destruct (os_mkdir p mode w) as [[[]|e] w1]; try done;
    destruct e; try done;
    destruct (negb parents || bool_decide (parent p = p)) eqn:Hstop; try done;
    apply orb_false_elim in Hstop as [Hpar Hne];
    apply negb_false_iff in Hpar; subst parents;
    apply bool_decide_eq_false in Hne;
    destruct Hd as [|[H1 H2]]; try done;
    (assert (p ≠ []) as Hp by (by intros ->));
    pose proof (parent_length p Hp) as Hlen.
  - lia.
  - destruct d2 as [|d2]; [lia|].
    apply bind_cong; [intros v|intros _ v]; apply IH; [right; lia|by left].
Qed.

Lemma Path_touch_at_eq p mode w :
  Path_touch_at p mode true w =
  match sys_utime_now (w_fs w) p with
  | Ok _ => (Ok tt, log (SysUtime p) w)
  | Raise _ => os_open_close p false mode (log (SysUtime p) w)
  end.
Proof.
  unfold Path_touch_at, bind, try_except, os_utime, lift_query. simpl.
  by destruct (sys_utime_now (w_fs w) p) as [[]|e].
Qed.

Lemma os_open_close_eq p excl mode w :
  os_open_close p excl mode w =
  match sys_open_creat_wronly (w_fs w) (w_umask w) p excl mode with
  | Ok fs' => (Ok tt, set_fs fs' (log (SysOpen p excl mode) w))
  | Raise e => (Raise e, log (SysOpen p excl mode) w)
  end.
Proof. reflexivity. Qed.

Lemma os_chmod_eq p mode w :
  os_chmod p mode w =
  match sys_chmod (w_fs w) (parts p) mode with
  | Ok fs' => (Ok tt, set_fs fs' (log (SysChmod (parts p) mode) w))
  | Raise e => (Raise e, log (SysChmod (parts p) mode) w)
  end.
Proof. reflexivity. Qed.

(** ** What a call that returned has established *)

Lemma sys_mkdir_Ok fs um p mode fs' :
  sys_mkdir fs um p mode = Ok fs' →
  ∃ d, namei_parent fs p = Ok d ∧ may_write d = true ∧ fs !! p = None ∧ p ≠ [] ∧
       fs' = <[p := Inode Dir (creation_mode mode um) true]> fs.
Proof.
  unfold sys_mkdir. destruct (namei_parent fs p) as [d|] eqn:Hd; [|done].
  destruct (fs !! p) eqn:Hp; [done|].
  destruct (may_write d) eqn:Hw; [|done]. intros [= <-].
  exists d. repeat split; try done. intros ->.
  apply namei_parent_Ok in Hd as [Hn _]. apply namei_lookup in Hn.
  simpl in Hn. congruence.
Qed.

Lemma sys_mkdir_Ok_namei fs um p mode fs' :
  sys_mkdir fs um p mode = Ok fs' →
  namei fs' p = Ok (Inode Dir (creation_mode mode um) true).
Proof.
  intros (d & Hd & _ & Hp & Hne & ->)%sys_mkdir_Ok.
  eapply namei_child; [done| |apply lookup_insert_eq].
  eapply namei_parent_mono; [|done]. by apply insert_subseteq.
Qed.

(** [Path.mkdir] returns only when the path is a directory the process
    can reach. *)
Lemma Path_mkdir_rec_Ok depth p mode parents exist_ok w w' :
  Path_mkdir_rec depth p mode parents exist_ok w = (Ok tt, w') →
  ∃ n, namei (w_fs w') p = Ok n ∧ i_kind n = Dir.
Proof.
  revert p mode parents exist_ok w w'.
  induction depth as [|depth IH]; intros p mode parents exist_ok w w';
    rewrite Path_mkdir_rec_eq, os_mkdir_eq;
    destruct (sys_mkdir (w_fs w) (w_umask w) p mode) as [fs'|e] eqn:E.
  1,3: intros [= <-]; apply sys_mkdir_Ok_namei in E; simpl; eauto.
  all: assert (∀ w1,
         (if negb exist_ok then (Raise e, w1)
          else (isdir <- Path_is_dir p ;;
                if negb isdir then raise e else ret tt) w1) = (Ok tt, w') →
         ∃ n, namei (w_fs w') p = Ok n ∧ i_kind n = Dir) as Hother.
  1,3: intros w1; destruct exist_ok; simpl; [|done];
       unfold bind; rewrite Path_is_dir_eq;
       destruct (namei (w_fs w1) p) as [n|e'] eqn:Hn;
       [unfold is_dir_inode; destruct (i_kind n) eqn:Hk; simpl; [|done];
        intros [= <-]; simpl; eauto
       |by destruct (ignore_error e')].
  all: destruct e; try apply Hother.
  all: destruct (negb parents || bool_decide (parent p = p)); [done|].
  - done.
  - intros (_ & w1 & _ & H2)%bind_Ok_inv. by eapply IH.
Qed.

Lemma Path_touch_at_Ok p mode w w' :
  Path_touch_at p mode true w = (Ok tt, w') →
  ∃ n, namei (w_fs w') p = Ok n ∧ touchable n = true.
Proof.
  rewrite Path_touch_at_eq. unfold sys_utime_now, touchable.
  destruct (namei (w_fs w) p) as [n|e] eqn:Hn.
  - destruct (i_owned n || may_write n) eqn:Ht.
    + intros [= <-]. simpl. eauto.
    + rewrite os_open_close_eq. simpl. unfold sys_open_creat_wronly.
      destruct (namei_parent (w_fs w) p); [|done].
      rewrite (namei_lookup _ _ _ Hn). simpl.
      destruct (i_kind n); [done|].
      apply orb_false_elim in Ht as [_ ->]. done.
  - rewrite os_open_close_eq. simpl. unfold sys_open_creat_wronly.
    destruct (namei_parent (w_fs w) p) as [d|] eqn:Hd; [|done].
    assert (p ≠ []) as Hne.
    { intros ->. apply namei_parent_Ok in Hd as [Hd _]. simpl in Hd. congruence. }
    destruct (w_fs w !! p) as [n|] eqn:Hp.
    + by rewrite (namei_child _ _ _ _ Hne Hd Hp) in Hn.
    + destruct (may_write d); [|done]. intros [= <-]. simpl.
      exists (Inode (File EmptyString) (creation_mode mode (w_umask w)) true).
      split; [|done].
      eapply namei_child; [done| |apply lookup_insert_eq].
      eapply namei_parent_mono; [|done]. by apply insert_subseteq.
Qed.

Lemma sys_chmod_Ok fs p mode fs' :
  sys_chmod fs p mode = Ok fs' →
  ∃ n, namei fs p = Ok n ∧ i_owned n = true ∧
       fs' = <[p := Inode (i_kind n) (Z.land mode (oct 7 7 7)) true]> fs.
Proof.
  unfold sys_chmod. destruct (namei fs p) as [n|] eqn:Hn; [|done].
  destruct (i_owned n) eqn:Ho; [|done]. intros [= <-]. eauto.
Qed.

(** * The manifest *)

Lemma deploy_in_files : "scripts/deploy.sh"%string ∈ files_to_create.
Proof. apply (bool_decide_unpack _). by vm_compute. Qed.

(** No manifest file lies on the way to a manifest directory. *)
Lemma file_not_prefix_of_dir f d :
  f ∈ files_to_create → d ∈ directories → ¬ parts f `prefix_of` parts d.
Proof.
  assert (Forall (λ f, Forall (λ d, ¬ parts f `prefix_of` parts d) directories)
            files_to_create) as H
    by (apply (bool_decide_unpack _); by vm_compute).
  intros Hf Hd. rewrite Forall_forall in H.
  specialize (H f Hf). rewrite Forall_forall in H. by apply H.
Qed.

(** Nothing in the manifest lies below [scripts/deploy.sh]. *)
Lemma deploy_not_prefix_of x :
  x ∈ directories ++ files_to_create → parts x ≠ deploy →
  ¬ deploy `prefix_of` parts x.
Proof.
  assert (Forall (λ x, parts x ≠ deploy → ¬ deploy `prefix_of` parts x)
            (directories ++ files_to_create)) as H
    by (apply (bool_decide_unpack _); by vm_compute).
  intros Hx. rewrite Forall_forall in H. by apply H.
Qed.

(** Every manifest file sits in the working directory or in a manifest
    directory. *)
Lemma file_parent f :
  f ∈ files_to_create →
  parts f ≠ [] ∧
  (parent (parts f) = [] ∨ ∃ d, d ∈ directories ∧ parent (parts f) = parts d).
Proof.
  assert (Forall (λ f, parts f ≠ [] ∧
                       (parent (parts f) = [] ∨
                        Exists (λ d, parent (parts f) = parts d) directories))
            files_to_create) as H
    by (apply (bool_decide_unpack _); by vm_compute).
  intros Hf. rewrite Forall_forall in H. destruct (H f Hf) as [Hne [H0|Hd]].
  - by split; [|left].
  - split; [done|right]. apply Exists_exists in Hd as (d & Hd & Heq). eauto.
Qed.

(** * The whole run *)

#[global] Instance settles_preorder : PreOrder settles.
Proof.
  split.
  - intros w. split; [done|eauto|]. intros q n ? ?; congruence.
  - intros w1 w2 w3 [Hu1 Ho1 Hn1] [Hu2 Ho2 Hn2]. split.
    + congruence.
    + intros q n H1. destruct (Ho1 q n H1) as (n2 & H2 & Hk & Hw & Hm).
      destruct (Ho2 q n2 H2) as (n3 & H3 & Hk' & Hw' & Hm').
      exists n3. repeat split; [done|congruence..|].
      intros Hq. by rewrite (Hm' Hq), (Hm Hq).
    + intros q n3 H3 H1. destruct (w_fs w2 !! q) as [n2|] eqn:H2.
      * destruct (Ho2 q n2 H2) as (n3' & H3' & Hk & Hw & Hm).
        assert (n3' = n3) as -> by congruence.
        specialize (Hn1 q n2 H2 H1). destruct (decide (q = deploy)).
        -- split; [rewrite Hk|rewrite Hw]; apply Hn1.
        -- by rewrite (Hm n).
      * rewrite <- Hu1. by apply Hn2.
Qed.

Lemma grows_settles w w' : grows w w' → settles w w'.
Proof.
  intros [Hu Hs Hn]. split; [done| |].
  - intros q n Hq. exists n. by rewrite (lookup_weaken _ _ _ _ Hq Hs).
  - intros q n' Hq' Hq. specialize (Hn q n' Hq' Hq).
    destruct (decide (q = deploy)) as [->|]; [|done].
    destruct Hn as [[_ (d & Hd & Hpre)]|[-> _]]; [|done].
    by destruct (file_not_prefix_of_dir _ d deploy_in_files Hd).
Qed.

Lemma os_chmod_settles mode : respects settles (os_chmod "scripts/deploy.sh" mode).
Proof.
  intros w r w'. rewrite os_chmod_eq. fold deploy.
  destruct (sys_chmod (w_fs w) deploy mode) as [fs'|e] eqn:E;
    intros [= _ <-]; [|by apply grows_settles, grows_same_fs].
  apply sys_chmod_Ok in E as (n & Hn%namei_lookup & Ho & ->).
  split; [done| |]; simpl.
  - intros q m Hq. destruct (decide (deploy = q)) as [<-|Hne].
    + rewrite lookup_insert_eq. eexists. split; [done|].
      assert (m = n) as -> by congruence. done.
    + rewrite lookup_insert_ne by done. eauto.
  - intros q n' Hq' Hq. destruct (decide (deploy = q)) as [<-|Hne].
    + congruence.
    + rewrite lookup_insert_ne in Hq' by done. congruence.
Qed.

Lemma print_settles s : respects settles (print s).
Proof. eapply respects_weaken; [apply grows_settles|apply print_grows]. Qed.

Lemma ensure_directories_grows :
  respects grows (for_each directories (λ directory, Path_mkdir directory true true)).
Proof. apply (respects_for_each grows). apply Path_mkdir_grows. Qed.

Lemma ensure_files_grows :
  respects grows
    (for_each files_to_create (λ file_path,
       Path_touch file_path ;; print ("Created: " +:+ file_path))).
Proof.
  apply (respects_for_each grows). intros f Hf.
  apply (respects_bind grows); [by apply Path_touch_grows|].
  intros _. apply print_grows.
Qed.

Lemma create_project_structure_settles : respects settles create_project_structure.
Proof.
  unfold create_project_structure.
  apply (respects_bind settles).
  { eapply respects_weaken; [apply grows_settles|apply ensure_directories_grows]. }
  intros _. apply (respects_bind settles).
  { eapply respects_weaken; [apply grows_settles|apply ensure_files_grows]. }
  intros _. apply (respects_bind settles); [apply os_chmod_settles|].
  intros _. apply (respects_bind settles); [apply print_settles|].
  intros _. apply print_settles.
Qed.

(** A run that returned went through its four stages. *)
Lemma create_project_structure_Ok_inv w w' :
  create_project_structure w = (Ok tt, w') →
  ∃ w1 w2 w3,
    for_each directories (λ directory, Path_mkdir directory true true) w
      = (Ok tt, w1) ∧
    for_each files_to_create (λ file_path,
       Path_touch file_path ;; print ("Created: " +:+ file_path)) w1
      = (Ok tt, w2) ∧
    os_chmod "scripts/deploy.sh" (oct 7 5 5) w2 = (Ok tt, w3) ∧
    w_fs w' = w_fs w3.
Proof.
  unfold create_project_structure.
  intros ([] & w1 & H1 & H)%bind_Ok_inv.
  apply bind_Ok_inv in H as ([] & w2 & H2 & H).
  apply bind_Ok_inv in H as ([] & w3 & H3 & H).
  apply bind_Ok_inv in H as ([] & w4 & H4 & H5).
  exists w1, w2, w3. repeat split; try done.
  injection H4 as <-. by injection H5 as <-.
Qed.

(** ** The scaffolded state *)

Lemma namei_insert_other fs p q n :
  ¬ p `prefix_of` q → namei (<[p := n]> fs) q = namei fs q.
Proof.
  intros Hpq. apply namei_ext. intros q' Hq'.
  apply lookup_insert_ne. intros ->. done.
Qed.

Lemma namei_insert_same fs p n n' :
  namei fs p = Ok n → namei (<[p := n']> fs) p = Ok n'.
Proof.
  destruct p as [|c p _] using rev_ind.
  - intros _. by rewrite namei_nil, lookup_insert_eq.
  - rewrite !namei_snoc. unfold namei_parent. rewrite parent_snoc.
    rewrite namei_insert_other, lookup_insert_eq.
    + destruct (namei fs p) as [d|]; [|done].
      destruct (i_kind d); [|done]. by destruct (may_exec d).
    + intros [k Hk]. apply (f_equal length) in Hk.
      rewrite !length_app in Hk. simpl in Hk. lia.
Qed.

Theorem create_project_structure_scaffolds w w' :
  create_project_structure w = (Ok tt, w') → scaffolded (w_fs w').
Proof.
  intros (w1 & w2 & w3 & H1 & H2 & H3 & ->)%create_project_structure_Ok_inv.
  pose proof (ensure_files_grows _ _ _ H2) as G2.
  rewrite os_chmod_eq in H3. fold deploy in H3.
  destruct (sys_chmod (w_fs w2) deploy (oct 7 5 5)) as [fs3|] eqn:E; [|done].
  injection H3 as <-. simpl.
  apply sys_chmod_Ok in E as (nd & Hnd & Hown & ->).
  split.
  - intros d Hd.
    rewrite namei_insert_other
      by exact (file_not_prefix_of_dir _ d deploy_in_files Hd).
    assert (∃ n, namei (w_fs w1) (parts d) = Ok n ∧ i_kind n = Dir)
      as (n & Hn & Hk).
    { eapply (for_each_post grows
                (λ d w, ∃ n, namei (w_fs w) (parts d) = Ok n ∧ i_kind n = Dir));
        [apply Path_mkdir_grows| | |exact H1|exact Hd].
      - intros x v v' _ Hx. unfold Path_mkdir in Hx. by eapply Path_mkdir_rec_Ok.
      - intros x v v' (n & Hn & Hk) G. exists n. split; [|done].
        eapply namei_mono; [apply G|done]. }
    exists n. split; [|done]. eapply namei_mono; [apply G2|done].
  - intros f Hf.
    assert (∃ n, namei (w_fs w2) (parts f) = Ok n ∧ touchable n = true)
      as (n & Hn & Ht).
    { eapply (for_each_post grows
                (λ f w, ∃ n, namei (w_fs w) (parts f) = Ok n ∧ touchable n = true));
        [| | |exact H2|exact Hf].
      - intros x Hx. apply (respects_bind grows); [by apply Path_touch_grows|].
        intros _. apply print_grows.
      - intros x v v' _ ([] & v1 & Hx & Hp)%bind_Ok_inv.
        injection Hp as <-. simpl. unfold Path_touch in Hx.
        by eapply Path_touch_at_Ok.
      - intros x v v' (n & Hn & Hk) G. exists n. split; [|done].
        eapply namei_mono; [apply G|done]. }
    destruct (decide (parts f = deploy)) as [->|Hne].
    + eexists. split; [by eapply namei_insert_same|done].
    + rewrite namei_insert_other; [eauto|].
      apply deploy_not_prefix_of; [|done]. apply elem_of_app. by right.
  - eexists. split; [by eapply namei_insert_same|done].
Qed.

(** ** Running on a scaffolded state *)

Lemma sys_mkdir_exists fs um p mode n :
  namei fs p = Ok n → i_kind n = Dir →
  sys_mkdir fs um p mode = Raise EEXIST ∨ sys_mkdir fs um p mode = Raise EACCES.
Proof.
  intros Hn Hk. unfold sys_mkdir.
  destruct (namei_parent fs p) as [d|e] eqn:Hd.
  - rewrite (namei_lookup _ _ _ Hn). by left.
  - right. destruct (decide (p = [])) as [->|Hne].
    + unfold namei_parent in Hd. simpl in Hd. rewrite Hn, Hk in Hd.
      destruct (may_exec n); [done|]. by injection Hd as <-.
    + destruct (namei_Ok_parent _ _ _ Hn Hne). congruence.
Qed.

(** [Path.mkdir(exist_ok=True)] on a directory that is there: no error,
    no change. *)
Lemma Path_mkdir_rec_exists depth p mode parents w n :
  namei (w_fs w) p = Ok n → i_kind n = Dir →
  Path_mkdir_rec depth p mode parents true w =
    (Ok tt, log (SysStat p) (log (SysMkdir p mode) w)).
Proof.
  intros Hn Hk. rewrite Path_mkdir_rec_eq, os_mkdir_eq.
  assert (is_dir_inode n = true) as Hd by (unfold is_dir_inode; by rewrite Hk).
  destruct (sys_mkdir_exists _ (w_umask w) _ mode _ Hn Hk) as [-> | ->];
    simpl; unfold bind; rewrite Path_is_dir_eq; simpl; by rewrite Hn, Hd.
Qed.

(** [Path.touch()] on a path that is there and may be touched: no error,
    no change. *)
Lemma Path_touch_at_exists p mode w n :
  namei (w_fs w) p = Ok n → touchable n = true →
  Path_touch_at p mode true w = (Ok tt, log (SysUtime p) w).
Proof.
  intros Hn Ht. rewrite Path_touch_at_eq. unfold sys_utime_now.
  rewrite Hn. unfold touchable in Ht. by rewrite Ht.
Qed.

Lemma os_chmod_same p mode w n :
  namei (w_fs w) (parts p) = Ok n → i_owned n = true →
  i_mode n = Z.land mode (oct 7 7 7) →
  os_chmod p mode w = (Ok tt, log (SysChmod (parts p) mode) w).
Proof.
  intros Hn Ho Hm. rewrite os_chmod_eq. unfold sys_chmod. rewrite Hn, Ho, <- Hm.
  rewrite insert_id; [by destruct w|].
  rewrite (namei_lookup _ _ _ Hn). by destruct n; simpl in *; subst.
Qed.


(** * Standard output *)

Lemma string_app_assoc (a b c : string) : (a +:+ b) +:+ c = a +:+ (b +:+ c).
Proof.
  induction a as [|x a IH]; [done|].
  change (String x ((a +:+ b) +:+ c) = String x (a +:+ (b +:+ c))).
  by rewrite IH.
Qed.

Lemma string_app_nil_r (a : string) : a +:+ EmptyString = a.
Proof.
  induction a as [|x a IH]; [done|].
  change (String x (a +:+ EmptyString) = String x a). by rewrite IH.
Qed.

#[global] Instance quiet_preorder : PreOrder quiet.
Proof. split; [done|]. intros w1 w2 w3. unfold quiet. congruence. Qed.

Lemma lift_fs_quiet (c : syscall) f : respects quiet (lift_fs c f).
Proof.
  intros w r w'. unfold lift_fs. simpl.
  by destruct (f (w_fs w) (w_umask w)); intros [= _ <-].
Qed.

Lemma lift_query_quiet {A} (c : syscall) (f : gmap path inode → outcome A) :
  respects quiet (lift_query c f).
Proof. by intros w r w' [= _ <-]. Qed.

Lemma Path_mkdir_quiet d : respects quiet (Path_mkdir d true true).
Proof.
  apply (Path_mkdir_rec_respects quiet).
  - intros q m _ _. apply lift_fs_quiet.
  - intros q _. apply lift_query_quiet.
Qed.

Lemma Path_touch_quiet f : respects quiet (Path_touch f).
Proof.
  apply (Path_touch_at_respects quiet);
    [apply lift_query_quiet|apply lift_fs_quiet].
Qed.

Lemma ensure_directories_quiet :
  respects quiet (for_each directories (λ directory, Path_mkdir directory true true)).
Proof. apply (respects_for_each quiet). intros d _. apply Path_mkdir_quiet. Qed.

Lemma ensure_files_stdout files w w' :
  for_each files (λ file_path,
    Path_touch file_path ;; print ("Created: " +:+ file_path)) w = (Ok tt, w') →
  w_stdout w' = w_stdout w +:+ created_text files.
Proof.
  revert w. induction files as [|f files IH]; intros w; simpl.
  - intros [= <-]. by rewrite string_app_nil_r.
  - intros ([] & w1 & Hb & Hrest)%bind_Ok_inv.
    apply bind_Ok_inv in Hb as ([] & w0 & Ht & Hp).
    apply Path_touch_quiet in Ht. injection Hp as <-.
    rewrite (IH _ Hrest). simpl. rewrite Ht.
    rewrite !string_app_assoc. done.
Qed.

Theorem create_project_structure_stdout w w' :
  create_project_structure w = (Ok tt, w') →
  w_stdout w' = w_stdout w +:+ report.
Proof.
  unfold create_project_structure.
  intros ([] & w1 & H1 & H)%bind_Ok_inv.
  apply bind_Ok_inv in H as ([] & w2 & H2 & H).
  apply bind_Ok_inv in H as ([] & w3 & H3 & H).
  apply bind_Ok_inv in H as ([] & w4 & H4 & H5).
  apply ensure_directories_quiet in H1.
  apply ensure_files_stdout in H2.
  unfold os_chmod in H3. apply lift_fs_quiet in H3.
  injection H4 as <-. injection H5 as <-. simpl.
  rewrite H3, H2, H1. unfold report, summary_line.
  rewrite !string_app_assoc. done.
Qed.

Lemma lines_report :
  lines report =
  (created_line <$> files_to_create)
  ++ [ EmptyString; "Created 13 files and 5 directories"%string; usage_hint ].
Proof. by vm_compute. Qed.

(** * Runs that return *)

Lemma new_dir_good um : umask_ok um = true → good (new_dir um).
Proof.
  unfold umask_ok. intros [H6 H7]%andb_true_iff.
  apply negb_true_iff in H6, H7.
  unfold good, may_exec, may_write, access_class, new_dir, creation_mode.
  cbn [i_kind i_mode i_owned].
  rewrite !Z.shiftr_spec, !Z.land_spec, !Z.lnot_spec by lia.
  change (0 + 6) with 6. change (1 + 6) with 7.
  by rewrite H6, H7.
Qed.

Lemma namei_good fs p :
  is_Some (fs !! ([] : path)) →
  (∀ q n, q `prefix_of` p → fs !! q = Some n → good n) →
  (∃ n, namei fs p = Ok n) ∨ namei fs p = Raise ENOENT.
Proof.
  intros [cwd Hcwd]. induction p as [|c p IH] using rev_ind; intros Hgood.
  - left. rewrite namei_nil, Hcwd. eauto.
  - rewrite namei_snoc. unfold namei_parent. rewrite parent_snoc.
    destruct IH as [[d Hd]| ->]; [| |by right].
    { intros q n Hq. apply Hgood. by apply prefix_app_r. }
    rewrite Hd. destruct (Hgood p d) as (-> & -> & _).
    { by apply prefix_app_r. }
    { by apply namei_lookup. }
    destruct (fs !! (p ++ [c])); eauto.
Qed.

(** [Path.mkdir] with the parent in place: it makes the directory or
    finds it there. *)
Lemma Path_mkdir_rec_parent_ok depth p mode parents w d :
  namei_parent (w_fs w) p = Ok d → may_write d = true →
  (∀ n, w_fs w !! p = Some n → i_kind n = Dir) →
  ∃ w', Path_mkdir_rec depth p mode parents true w = (Ok tt, w').
Proof.
  intros Hd Hw Hp. destruct (w_fs w !! p) as [n|] eqn:Hn.
  - assert (namei (w_fs w) p = Ok n) as Hres.
    { destruct (decide (p = [])) as [->|Hne]; [|by eapply namei_child].
      by rewrite namei_nil, Hn. }
    rewrite (Path_mkdir_rec_exists _ _ _ _ _ _ Hres (Hp n eq_refl)). eauto.
  - rewrite Path_mkdir_rec_eq, os_mkdir_eq. unfold sys_mkdir.
    rewrite Hd, Hn, Hw. eauto.
Qed.

Section clean_run.
Context (cwd : inode) (um : Z).
Hypothesis cwd_good : good cwd.
Hypothesis um_ok : umask_ok um = true.

Lemma tidy_grows w w' : tidy cwd um w → grows w w' → tidy cwd um w'.
Proof.
  intros (Hu & Hc & Hall) [Gu Gs Gn].
  split; [congruence|]. split; [by eapply lookup_weaken|].
  intros q n Hn Hq. destruct (w_fs w !! q) as [m|] eqn:Hm.
  - rewrite (lookup_weaken _ _ _ _ Hm Gs) in Hn. injection Hn as <-.
    by apply (Hall q m).
  - destruct (Gn q n Hn Hm) as [[-> _]|[-> (f & Hf & ->)]].
    + split; [done|]. intros _ _ _. apply new_dir_good. by rewrite Hu.
    + split; [done|]. intros d Hd Hpre.
      by destruct (file_not_prefix_of_dir f d).
Qed.

Lemma tidy_good w d q n :
  tidy cwd um w → d ∈ directories → q `prefix_of` parts d →
  w_fs w !! q = Some n → good n.
Proof.
  intros (Hu & Hc & Hall) Hd Hq Hn.
  destruct (decide (q = [])) as [->|Hne].
  - assert (n = cwd) as -> by congruence. done.
  - by apply (proj2 (Hall q n Hn Hne) d).
Qed.

Lemma tidy_owned w q n : tidy cwd um w → q ≠ [] → w_fs w !! q = Some n → i_owned n = true.
Proof. intros (Hu & Hc & Hall) Hq Hn. by apply (proj1 (Hall q n Hn Hq)). Qed.

Lemma Path_mkdir_rec_returns depth p w :
  (length p ≤ depth)%nat →
  (∃ d, d ∈ directories ∧ p `prefix_of` parts d) →
  tidy cwd um w →
  ∃ w', Path_mkdir_rec depth p (oct 7 7 7) true true w = (Ok tt, w').
Proof.
  revert p w. induction depth as [|depth IH]; intros p w Hlen (d & Hd & Hp) Hw.
  all: assert (∀ v q n, tidy cwd um v → q `prefix_of` p → w_fs v !! q = Some n → good n)
         as Hgood
         by (intros v q n Hv Hq; eapply tidy_good; [done..|by etrans]).
  all: destruct (namei_parent (w_fs w) p) as [dn|e] eqn:Hdn.
  1,3: apply namei_parent_Ok in Hdn as Hdn'; destruct Hdn' as (Hres%namei_lookup & _);
       eapply Path_mkdir_rec_parent_ok;
         [done
         |eapply (Hgood w); [done|apply parent_prefix|done]
         |intros n Hn; eapply (Hgood w); done].
  all: assert (namei (w_fs w) (parent p) = Raise ENOENT ∧ p ≠ []) as [Hno Hne].
  1,3: destruct (namei_good (w_fs w) (parent p)) as [[n Hn]|Hn];
         [destruct Hw as (_ & -> & _); eauto
         |intros q n Hq; eapply (Hgood w); [done|]; etrans; [done|apply parent_prefix]
         |destruct (Hgood w (parent p) n) as (Hk & Hx & _);
            [done|apply parent_prefix|by apply namei_lookup|];
          unfold namei_parent in Hdn; by rewrite Hn, Hk, Hx in Hdn
         |split; [done|]; intros ->; simpl in Hn;
          rewrite namei_nil in Hn; destruct Hw as (_ & Hc & _);
          by rewrite Hc in Hn].
  - destruct p; [done|simpl in Hlen; lia].
  - rewrite Path_mkdir_rec_eq, os_mkdir_eq. unfold sys_mkdir, namei_parent.
    rewrite Hno. simpl.
    rewrite bool_decide_eq_false_2.
    2:{ intros Heq. apply parent_length in Hne. rewrite Heq in Hne. lia. }
    set (w0 := log (SysMkdir p (oct 7 7 7)) w).
    assert (tidy cwd um w0) as Hw0 by done.
    destruct (IH (parent p) w0) as (w1 & H1); [|exists d|done|].
    { apply parent_length in Hne. lia. }
    { split; [done|]. etrans; [apply parent_prefix|done]. }
    rewrite (bind_Ok _ _ _ _ _ H1).
    assert (tidy cwd um w1) as Hw1.
    { eapply tidy_grows; [exact Hw0|].
      eapply (Path_mkdir_rec_respects grows); [| |exact H1].
      - intros q m Hq Hm. assert (m = oct 7 7 7) as -> by (by destruct Hm).
        apply os_mkdir_grows. exists d. split; [done|].
        etrans; [done|]. etrans; [apply parent_prefix|done].
      - intros q _. apply lift_query_grows. }
    apply Path_mkdir_rec_Ok in H1 as (n1 & Hn1 & Hk1).
    destruct (Hgood w1 (parent p) n1) as (_ & Hx1 & Hwr1);
      [done|apply parent_prefix|by apply namei_lookup|].
    eapply Path_mkdir_rec_parent_ok.
    + by apply namei_parent_intro.
    + done.
    + intros n Hn. eapply (Hgood w1); done.
Qed.

Lemma Path_mkdir_returns d w :
  d ∈ directories → tidy cwd um w →
  ∃ w', Path_mkdir d true true w = (Ok tt, w') ∧ tidy cwd um w'.
Proof.
  intros Hd Hw.
  destruct (Path_mkdir_rec_returns (length (parts d)) (parts d) w)
    as (w' & Hrun); [done|by exists d|done|].
  exists w'. split; [done|].
  eapply tidy_grows; [done|]. by eapply Path_mkdir_grows.
Qed.

(** [Path.touch] with the parent in place and writable: it finds the
    file, or makes it. *)
Lemma Path_touch_at_parent_ok p mode w d :
  namei_parent (w_fs w) p = Ok d → may_write d = true →
  (∀ n, w_fs w !! p = Some n → touchable n = true) →
  ∃ w', Path_touch_at p mode true w = (Ok tt, w').
Proof.
  intros Hd Hw Hp. rewrite Path_touch_at_eq. unfold sys_utime_now.
  destruct (namei (w_fs w) p) as [n|e] eqn:Hn.
  - apply namei_lookup, Hp in Hn. unfold touchable in Hn. rewrite Hn. eauto.
  - rewrite os_open_close_eq. unfold sys_open_creat_wronly. simpl. rewrite Hd.
    destruct (w_fs w !! p) as [n|] eqn:Hl.
    + assert (p ≠ []) as Hne.
      { intros ->. rewrite namei_nil, Hl in Hn. done. }
      by rewrite (namei_child _ _ _ _ Hne Hd Hl) in Hn.
    + rewrite Hw. eauto.
Qed.

Lemma furnished_grows w w' : furnished cwd um w → grows w w' → furnished cwd um w'.
Proof.
  intros [Hw Hd] G. split; [by eapply tidy_grows|].
  intros d (n & Hn)%Hd. exists n. eapply namei_mono; [apply G|done].
Qed.

Lemma Path_touch_returns f w :
  f ∈ files_to_create → furnished cwd um w →
  ∃ w', Path_touch f w = (Ok tt, w') ∧ furnished cwd um w'.
Proof.
  intros Hf [Hw Hdirs].
  destruct (file_parent f Hf) as [Hne Hpar].
  assert (∃ dn, namei_parent (w_fs w) (parts f) = Ok dn ∧ may_write dn = true)
    as (dn & Hdn & Hwr).
  { destruct Hpar as [H0|(d & Hd & Hpd)].
    - exists cwd. destruct cwd_good as (Hk & Hx & Hwr). split; [|done].
      apply namei_parent_intro; [|done..]. rewrite H0, namei_nil.
      destruct Hw as (_ & -> & _). done.
    - destruct (Hdirs d Hd) as (n & Hn).
      destruct (tidy_good w d (parts d) n) as (Hk & Hx & Hwr);
        [done..|by apply namei_lookup|].
      exists n. split; [|done]. apply namei_parent_intro; [|done..].
      by rewrite Hpd. }
  destruct (Path_touch_at_parent_ok (parts f) (oct 6 6 6) w dn)
    as (w' & Hrun); [done..| |].
  { intros n Hn. unfold touchable. by rewrite (tidy_owned w (parts f) n). }
  exists w'. split; [done|].
  eapply furnished_grows; [by split|]. by eapply Path_touch_grows.
Qed.

(** A run from a tidy state returns. *)
Theorem create_project_structure_returns w :
  tidy cwd um w → ∃ w', create_project_structure w = (Ok tt, w').
Proof.
  intros Hw. unfold create_project_structure.
  destruct (for_each_returns (tidy cwd um) directories
              (λ directory, Path_mkdir directory true true))
    with (w := w) as (w1 & R1 & Hw1); [|done|].
  { intros d v Hd Hv. by apply Path_mkdir_returns. }
  rewrite (bind_Ok _ _ _ _ _ R1).
  assert (furnished cwd um w1) as Hf1.
  { split; [done|]. intros d Hd.
    destruct (for_each_post grows
                (λ d w, ∃ n, namei (w_fs w) (parts d) = Ok n ∧ i_kind n = Dir)
                directories (λ directory, Path_mkdir directory true true))
      with (w := w) (w' := w1) (x := d) as (n & Hn & _); eauto.
    - apply Path_mkdir_grows.
    - intros x v v' _ Hx. unfold Path_mkdir in Hx. by eapply Path_mkdir_rec_Ok.
    - intros x v v' (n & Hn & Hk) G. exists n. split; [|done].
      eapply namei_mono; [apply G|done]. }
  destruct (for_each_returns (furnished cwd um) files_to_create
              (λ file_path, Path_touch file_path ;;
                            print ("Created: " +:+ file_path)))
    with (w := w1) as (w2 & R2 & Hw2); [|done|].
  { intros f v Hf Hv. destruct (Path_touch_returns f v Hf Hv) as (v' & Hrun & Hv').
    unfold bind at 1. rewrite Hrun. eexists. split; [done|].
    destruct Hv' as [Ht Hd]. done. }
  rewrite (bind_Ok _ _ _ _ _ R2).
  assert (∃ n, namei (w_fs w2) deploy = Ok n ∧ i_owned n = true)
    as (n & Hn & Hown).
  { destruct (for_each_post grows
                (λ f w, ∃ n, namei (w_fs w) (parts f) = Ok n ∧ touchable n = true)
                files_to_create
                (λ file_path, Path_touch file_path ;;
                              print ("Created: " +:+ file_path)))
      with (w := w1) (w' := w2) (x := "scripts/deploy.sh"%string)
      as (n & Hn & _); [| | |done|apply deploy_in_files|].
    - intros x Hx. apply (respects_bind grows); [by apply Path_touch_grows|].
      intros _. apply print_grows.
    - intros x v v' _ ([] & v1 & Hx & Hp)%bind_Ok_inv.
      injection Hp as <-. simpl. unfold Path_touch in Hx.
      by eapply Path_touch_at_Ok.
    - intros x v v' (n & Hn & Hk) G. exists n. split; [|done].
      eapply namei_mono; [apply G|done].
    - exists n. split; [done|]. destruct Hw2 as [Ht _].
      eapply (tidy_owned w2 deploy); [done|done|by apply namei_lookup]. }
  unfold bind at 1. rewrite os_chmod_eq. unfold sys_chmod. fold deploy.
  rewrite Hn, Hown. unfold bind, print. simpl. eauto.
Qed.
End clean_run.

(** * The order of the system calls *)

#[global] Instance traced_preorder (P : syscall → bool) : PreOrder (traced P).
Proof.
  split.
  - intros w. exists []. by rewrite app_nil_r.
  - intros w1 w2 w3 (t1 & E1 & F1) (t2 & E2 & F2). exists (t1 ++ t2). split.
    + by rewrite E2, E1, app_assoc.
    + by apply Forall_app.
Qed.

Lemma lift_fs_traced (P : syscall → bool) (c : syscall) f :
  P c = true → respects (traced P) (lift_fs c f).
Proof.
  intros Hc w r w'. unfold lift_fs. simpl.
  destruct (f (w_fs w) (w_umask w)); intros [= _ <-];
    exists [c]; split; try done; by apply Forall_singleton.
Qed.

Lemma lift_query_traced {A} (P : syscall → bool) (c : syscall)
    (f : gmap path inode → outcome A) :
  P c = true → respects (traced P) (lift_query c f).
Proof.
  intros Hc w r w' [= _ <-]. exists [c]. split; [done|]. by apply Forall_singleton.
Qed.

Lemma print_traced (P : syscall → bool) s :
  P (SysWrite (s +:+ newline)) = true → respects (traced P) (print s).
Proof.
  intros Hc w r w' [= _ <-]. eexists. split; [done|]. by apply Forall_singleton.
Qed.

Lemma Path_mkdir_traced d : respects (traced is_dir_call) (Path_mkdir d true true).
Proof.
  apply (Path_mkdir_rec_respects (traced is_dir_call)).
  - intros q m _ _. by apply lift_fs_traced.
  - intros q _. by apply lift_query_traced.
Qed.

Lemma Path_touch_traced f : respects (traced is_file_call) (Path_touch f).
Proof.
  apply (Path_touch_at_respects (traced is_file_call));
    [by apply lift_query_traced|by apply lift_fs_traced].
Qed.

Lemma prefix_created_line f s :
  starts_with "Created: " (("Created: " +:+ f) +:+ s) = true.
Proof. reflexivity. Qed.

Lemma ensure_directories_traced :
  respects (traced is_dir_call)
    (for_each directories (λ directory, Path_mkdir directory true true)).
Proof.
  apply (respects_for_each (traced is_dir_call)).
  intros d _. apply Path_mkdir_traced.
Qed.

Lemma ensure_files_traced :
  respects (traced is_file_call)
    (for_each files_to_create (λ file_path,
       Path_touch file_path ;; print ("Created: " +:+ file_path))).
Proof.
  apply (respects_for_each (traced is_file_call)). intros f _.
  apply (respects_bind (traced is_file_call)); [apply Path_touch_traced|].
  intros _. apply print_traced, prefix_created_line.
Qed.

(** Each body of a loop starts with a call of its own. *)
Lemma for_each_calls {A} (E : A → syscall) (xs : list A) body :
  (∀ x w r w', body x w = (r, w') → ∃ t, w_trace w' = w_trace w ++ E x :: t) →
  ∀ w w', for_each xs body w = (Ok tt, w') →
  ∃ t, w_trace w' = w_trace w ++ t ∧ ∀ x, x ∈ xs → E x ∈ t.
Proof.
  intros Hb. induction xs as [|x xs IH]; intros w w'; simpl.
  - intros [= <-]. exists []. split; [by rewrite app_nil_r|].
    intros x Hx. by apply elem_of_nil in Hx.
  - intros ([] & w1 & Hx & Hrest)%bind_Ok_inv.
    destruct (Hb _ _ _ _ Hx) as (t1 & E1).
    destruct (IH _ _ Hrest) as (t2 & E2 & Hin).
    exists (E x :: t1 ++ t2). split.
    + rewrite E2, E1. by rewrite <- app_assoc.
    + intros y [->|Hy]%elem_of_cons; [left|].
      right. apply elem_of_app. right. by apply Hin.
Qed.

Lemma Path_mkdir_rec_traced_any depth p mode parents exist_ok :
  respects (traced (λ _, true)) (Path_mkdir_rec depth p mode parents exist_ok).
Proof.
  apply (Path_mkdir_rec_respects (traced (λ _, true))).
  - intros q m _ _. by apply lift_fs_traced.
  - intros q _. by apply lift_query_traced.
Qed.

Lemma Path_is_dir_traced_any p : respects (traced (λ _, true)) (Path_is_dir p).
Proof.
  apply (Path_is_dir_respects (traced (λ _, true))). by apply lift_query_traced.
Qed.

Lemma Path_mkdir_first_call d w r w' :
  Path_mkdir d true true w = (r, w') →
  ∃ t, w_trace w' = w_trace w ++ SysMkdir (parts d) (oct 7 7 7) :: t.
Proof.
  unfold Path_mkdir. rewrite Path_mkdir_rec_eq.
  destruct (os_mkdir (parts d) (oct 7 7 7) w) as [o w1] eqn:E1.
  assert (w_trace w1 = w_trace w ++ [SysMkdir (parts d) (oct 7 7 7)]) as Hw1.
  { rewrite os_mkdir_eq in E1.
    by destruct (sys_mkdir (w_fs w) (w_umask w) (parts d) (oct 7 7 7));
      injection E1 as _ <-. }
  intros Hrest.
  assert (traced (λ _, true) w1 w') as (t & Et & _).
  { destruct o as [[]|e]; [injection Hrest as _ <-; reflexivity|].
    assert (respects (traced (λ _, true))
              (isdir <- Path_is_dir (parts d) ;;
               if negb isdir then raise e else ret tt)) as Hother.
    { apply (respects_bind (traced (λ _, true))); [apply Path_is_dir_traced_any|].
      intros b. apply (respects_if (traced (λ _, true)));
        [apply (respects_raise (traced (λ _, true)))
        |apply (respects_ret (traced (λ _, true)))]. }
    destruct e; simpl in Hrest; try (by eapply Hother).
    destruct (bool_decide (parent (parts d) = parts d));
      [injection Hrest as _ <-; reflexivity|].
    destruct (length (parts d)); [injection Hrest as _ <-; reflexivity|].
    eapply (respects_bind (traced (λ _, true))); [| |exact Hrest].
    - apply Path_mkdir_rec_traced_any.
    - intros []. apply Path_mkdir_rec_traced_any. }
  exists t. rewrite Et, Hw1. by rewrite <- app_assoc.
Qed.

Lemma Path_touch_first_call f w r w' :
  Path_touch f w = (r, w') →
  ∃ t, w_trace w' = w_trace w ++ SysUtime (parts f) :: t.
Proof.
  unfold Path_touch. rewrite Path_touch_at_eq.
  destruct (sys_utime_now (w_fs w) (parts f)).
  - intros [= _ <-]. by exists [].
  - rewrite os_open_close_eq. simpl.
    destruct (sys_open_creat_wronly _ _ _ _ _); intros [= _ <-]; simpl;
      eexists; by rewrite <- app_assoc.
Qed.

(** * Properties of the scaffolder *)

Lemma clean_world_clean : clean clean_world.
Proof. eexists. split; [done|]. by vm_compute. Qed.

Lemma clean_tidy w :
  clean w → ∃ cwd, good cwd ∧ umask_ok (w_umask w) = true ∧ tidy cwd (w_umask w) w.
Proof.
  intros (cwd & Hfs & Hgood & Hum). exists cwd.
  split; [done|]. split; [done|]. unfold tidy. rewrite Hfs.
  split; [done|]. split; [apply lookup_singleton_eq|].
  by intros q n [<- _]%lookup_singleton_Some.
Qed.

Lemma clean_run_returns w : clean w → ∃ w', create_project_structure w = (Ok tt, w').
Proof.
  intros (cwd & Hgood & Hum & Htidy)%clean_tidy.
  by eapply create_project_structure_returns.
Qed.

Lemma returns_snd w :
  (∃ w', create_project_structure w = (Ok tt, w')) →
  create_project_structure w = (Ok tt, snd (create_project_structure w)).
Proof. intros (w' & Hrun). by rewrite Hrun. Qed.

(** A manifest file that was not there before a run that returned is an
    empty regular file afterwards, made by the process with the default
    creation mode ([scripts/deploy.sh] has had its mode changed since). *)
Lemma missing_file_created w w' f :
  create_project_structure w = (Ok tt, w') →
  f ∈ files_to_create → w_fs w !! parts f = None →
  ∃ n, namei (w_fs w') (parts f) = Ok n ∧ i_kind n = File EmptyString ∧
       (parts f ≠ deploy → n = new_file (w_umask w)).
Proof.
  intros Hrun Hf Hmiss.
  destruct (scaffolded_files _ (create_project_structure_scaffolds _ _ Hrun) f Hf)
    as (n & Hn & _).
  exists n. split; [done|].
  pose proof (settles_new _ _ (create_project_structure_settles _ _ _ Hrun)
                (parts f) n (namei_lookup _ _ _ Hn) Hmiss) as Hnew.
  destruct (decide (parts f = deploy)) as [Heq|Hne].
  - destruct Hnew as [Hk _]. done.
  - destruct Hnew as [[_ (d & Hd & Hpre)]|[-> _]]; [|done].
    by destruct (file_not_prefix_of_dir f d).
Qed.

(** C1, amended.  A run started in an empty working directory that the
    process may enter and write to, under a umask that leaves the owner's
    write and search bits alone, returns; afterwards each of the 5
    manifest directories is a directory, each of the 13 manifest files is
    a regular file of zero bytes, and the output ends with the summary
    line [Created 13 files and 5 directories] followed by the usage
    hint.  Without the condition on the umask the claim fails, as the
    run under umask [0o222] shows at the end of this file. *)
Theorem clean_run_creates_everything w :
  clean w →
  ∃ w', create_project_structure w = (Ok tt, w') ∧
    length directories = 5%nat ∧ length files_to_create = 13%nat ∧
    (∀ d, d ∈ directories →
       ∃ n, sys_stat (w_fs w') (parts d) = Ok n ∧ i_kind n = Dir) ∧
    (∀ f, f ∈ files_to_create →
       ∃ n, sys_stat (w_fs w') (parts f) = Ok n ∧ i_kind n = File EmptyString) ∧
    w_stdout w' = w_stdout w +:+ report ∧
    lines report =
      (created_line <$> files_to_create)
      ++ [ EmptyString; "Created 13 files and 5 directories"%string; usage_hint ].
Proof.
  intros Hclean.
  destruct (clean_tidy w Hclean) as (cwd & Hgood & Hum & Htidy).
  destruct (create_project_structure_returns cwd (w_umask w) Hgood Hum w Htidy)
    as (w' & Hrun).
  exists w'. split; [done|]. split; [done|]. split; [done|].
  pose proof (create_project_structure_scaffolds _ _ Hrun) as [Hdirs Hfiles _].
  split; [exact Hdirs|]. split.
  - intros f Hf.
    destruct (missing_file_created w w' f Hrun Hf) as (n & Hn & Hk & _); [|eauto].
    destruct Hclean as (c & -> & _). apply lookup_singleton_ne.
    intros Heq. by destruct (file_parent f Hf) as [Hne _].
  - split; [by apply create_project_structure_stdout|apply lines_report].
Qed.

Lemma clean_run_creates_everything_witness :
  clean clean_world ∧
  ∃ w', create_project_structure clean_world = (Ok tt, w') ∧
    length directories = 5%nat ∧ length files_to_create = 13%nat ∧
    (∀ d, d ∈ directories →
       ∃ n, sys_stat (w_fs w') (parts d) = Ok n ∧ i_kind n = Dir) ∧
    (∀ f, f ∈ files_to_create →
       ∃ n, sys_stat (w_fs w') (parts f) = Ok n ∧ i_kind n = File EmptyString) ∧
    w_stdout w' = w_stdout clean_world +:+ report ∧
    lines report =
      (created_line <$> files_to_create)
      ++ [ EmptyString; "Created 13 files and 5 directories"%string; usage_hint ].
Proof.
  split; [exact clean_world_clean|].
  apply (clean_run_creates_everything clean_world). exact clean_world_clean.
Defined.



Lemma placeholder_world_tidy :
  tidy (Inode Dir (oct 7 5 5) true) (oct 0 2 2) placeholder_world.
Proof.
  split; [done|]. split; [done|]. simpl. intros q n Hq Hne.
  apply lookup_insert_Some in Hq as [[<- <-]|[_ Hq]].
  { split; [done|]. intros d Hd Hpre.
    destruct (file_not_prefix_of_dir "k8s/02-mongodb.yaml" d); [|done..].
    apply (bool_decide_unpack _). by vm_compute. }
  apply lookup_insert_Some in Hq as [[<- <-]|[_ Hq]].
  { split; [done|]. intros _ _ _. by vm_compute. }
  by apply lookup_singleton_Some in Hq as [<- _].
Qed.

Lemma placeholder_world_returns :
  ∃ w', create_project_structure placeholder_world = (Ok tt, w').
Proof.
  eapply create_project_structure_returns; [| |apply placeholder_world_tidy];
    by vm_compute.
Qed.

(** C3. A file that is at a manifest path before the run has the same
    contents after it, however the run ends; and a run that returns has
    made every manifest file that was missing, empty. *)
Theorem existing_files_keep_contents w r w' :
  create_project_structure w = (r, w') →
  (∀ f n c, f ∈ files_to_create →
     w_fs w !! parts f = Some n → i_kind n = File c →
     ∃ n', w_fs w' !! parts f = Some n' ∧ i_kind n' = File c) ∧
  (r = Ok tt →
   ∀ f, f ∈ files_to_create → w_fs w !! parts f = None →
     ∃ n', sys_stat (w_fs w') (parts f) = Ok n' ∧ i_kind n' = File EmptyString).
Proof.
  intros Hrun. split.
  - intros f n c _ Hn Hc.
    destruct (settles_old _ _ (create_project_structure_settles _ _ _ Hrun)
                (parts f) n Hn) as (n' & Hn' & Hk & _).
    exists n'. split; [done|]. congruence.
  - intros -> f Hf Hmiss.
    destruct (missing_file_created w w' f Hrun Hf Hmiss) as (n & Hn & Hk & _).
    eauto.
Qed.

Lemma existing_files_keep_contents_witness :
  let w' := snd (create_project_structure placeholder_world) in
  create_project_structure placeholder_world = (Ok tt, w') ∧
  (∃ n', w_fs w' !! parts "k8s/02-mongodb.yaml" = Some n' ∧
         i_kind n' = File "placeholder") ∧
  (∃ n', sys_stat (w_fs w') (parts "Makefile") = Ok n' ∧
         i_kind n' = File EmptyString).
Proof.
  pose proof (returns_snd _ placeholder_world_returns) as Hrun.
  split; [exact Hrun|].
  destruct (existing_files_keep_contents _ _ _ Hrun) as [Hkeep Hmake].
  split.
  - apply (Hkeep "k8s/02-mongodb.yaml"%string
             (Inode (File "placeholder") (oct 6 4 4) true)).
    + apply (bool_decide_unpack _). vm_compute. exact I.
    + apply lookup_insert_eq.
    + reflexivity.
  - apply (Hmake eq_refl "Makefile"%string).
    + apply (bool_decide_unpack _). vm_compute. exact I.
    + simpl. rewrite !lookup_insert_ne by done. by apply lookup_singleton_ne.
Defined.

(** C4. After a run that returned, [scripts/deploy.sh] has mode [0o755],
    whatever was there before. *)
Theorem deploy_mode_755 w w' :
  create_project_structure w = (Ok tt, w') →
  ∃ n, sys_stat (w_fs w') (parts "scripts/deploy.sh") = Ok n ∧
       i_mode n = oct 7 5 5.
Proof.
  intros Hrun.
  destruct (scaffolded_deploy _ (create_project_structure_scaffolds _ _ Hrun))
    as (n & Hn & _ & Hm).
  eauto.
Qed.

Lemma deploy_600_world_returns :
  ∃ w', create_project_structure deploy_600_world = (Ok tt, w').
Proof.
  eapply (create_project_structure_returns (Inode Dir (oct 7 5 5) true) (oct 0 2 2));
    [by vm_compute..|].
  split; [done|]. split; [done|]. simpl. intros q n Hq Hne.
  apply lookup_insert_Some in Hq as [[<- <-]|[_ Hq]].
  { split; [done|]. intros d Hd Hpre.
    by destruct (file_not_prefix_of_dir _ d deploy_in_files Hd). }
  apply lookup_insert_Some in Hq as [[<- <-]|[_ Hq]].
  { split; [done|]. intros _ _ _. by vm_compute. }
  by apply lookup_singleton_Some in Hq as [<- _].
Qed.

Lemma deploy_mode_755_witness :
  let w' := snd (create_project_structure deploy_600_world) in
  create_project_structure deploy_600_world = (Ok tt, w') ∧
  ∃ n, sys_stat (w_fs w') (parts "scripts/deploy.sh") = Ok n ∧
       i_mode n = oct 7 5 5.
Proof.
  pose proof (returns_snd _ deploy_600_world_returns) as Hrun.
  exact (conj Hrun (deploy_mode_755 deploy_600_world _ Hrun)).
Defined.





(** ** The order of the stages *)

(** Whatever resolves has directories all the way up. *)
Lemma namei_prefix_dir fs (p q : path) n :
  namei fs p = Ok n → q `prefix_of` p → q ≠ p →
  ∃ m, namei fs q = Ok m ∧ i_kind m = Dir.
Proof.
  revert n q. induction p as [|c p IH] using rev_ind; intros n q Hn Hq Hne.
  - apply prefix_nil_inv in Hq. congruence.
  - rewrite namei_snoc in Hn.
    destruct (namei_parent fs (p ++ [c])) as [d|] eqn:Hd; [|done].
    apply namei_parent_Ok in Hd as (Hp & Hk & _). rewrite parent_snoc in Hp.
    assert (q `prefix_of` p) as Hqp.
    { destruct Hq as [k Hk']. destruct k as [|x k _] using rev_ind.
      - rewrite app_nil_r in Hk'. congruence.
      - rewrite app_assoc in Hk'. apply app_inj_tail in Hk' as [-> _].
        by apply prefix_app_r. }
    destruct (decide (q = p)) as [->|Hqne]; [eauto|]. by eapply IH.
Qed.

Lemma touch_print_first_call f w r w' :
  (Path_touch f ;; print ("Created: " +:+ f)) w = (r, w') →
  ∃ t, w_trace w' = w_trace w ++ SysUtime (parts f) :: t.
Proof.
  unfold bind. destruct (Path_touch f w) as [[[]|e] w1] eqn:Ht;
    destruct (Path_touch_first_call _ _ _ _ Ht) as (t & Et).
  - intros [= _ <-]. simpl. rewrite Et, <- app_assoc. simpl. eauto.
  - intros [= _ <-]. eauto.
Qed.

(** C6. The system calls of a run, however it ends, come in four
    stretches, in this order: calls that make directories ([mkdir],
    [stat]); calls that touch files and print their [Created: ...] lines;
    the [chmod]; the two writes of the summary.  An aborted run has a
    beginning of this sequence.  In a run that returns, the first stretch
    has a [mkdir] for each manifest directory and leaves all of them, and
    the directories above them, in place before the first file is
    touched; the second has a touch for each manifest file; the third is
    the [chmod] of [scripts/deploy.sh] to [0o755]; the fourth is the
    summary line and the usage hint.  And [Path.mkdir] on a directory
    that is already there returns without touching the filesystem. *)
Theorem stages_in_order w r w' :
  create_project_structure w = (r, w') →
  (∃ tD tF tC tS,
     w_trace w' = w_trace w ++ tD ++ tF ++ tC ++ tS ∧
     Forall (λ c, is_dir_call c = true) tD ∧
     Forall (λ c, is_file_call c = true) tF ∧
     Forall (λ c, is_chmod_call c = true) tC ∧
     Forall (λ c, is_summary_call c = true) tS ∧
     (r = Ok tt →
        (∀ d, d ∈ directories → SysMkdir (parts d) (oct 7 7 7) ∈ tD) ∧
        (∀ f, f ∈ files_to_create → SysUtime (parts f) ∈ tF) ∧
        tC = [SysChmod (parts "scripts/deploy.sh") (oct 7 5 5)] ∧
        tS = [SysWrite (newline
                        +:+ summary_line (length files_to_create)
                              (length directories) +:+ newline);
              SysWrite (usage_hint +:+ newline)] ∧
        ∃ w1,
          for_each directories (λ directory, Path_mkdir directory true true) w
            = (Ok tt, w1) ∧
          w_trace w1 = w_trace w ++ tD ∧
          ∀ d q, d ∈ directories → q `prefix_of` parts d →
            ∃ n, namei (w_fs w1) q = Ok n ∧ i_kind n = Dir)) ∧
  (∀ d v n, namei (w_fs v) (parts d) = Ok n → i_kind n = Dir →
     ∃ v', Path_mkdir d true true v = (Ok tt, v') ∧ w_fs v' = w_fs v).
Proof.
  intros Hrun. split.
  2:{ intros d v n Hn Hk. unfold Path_mkdir.
      rewrite (Path_mkdir_rec_exists _ _ _ _ _ _ Hn Hk). eauto. }
  revert Hrun. unfold create_project_structure. unfold bind at 1.
  destruct (for_each directories _ w) as [[[]|e1] w1] eqn:E1.
  2:{ intros [= <- <-].
      destruct (ensure_directories_traced _ _ _ E1) as (tD & HtD & FD).
      exists tD, [], [], []. rewrite !app_nil_r. by repeat split. }
  destruct (ensure_directories_traced _ _ _ E1) as (tD & HtD & FD).
  unfold bind at 1.
  destruct (for_each files_to_create _ w1) as [[[]|e2] w2] eqn:E2.
  2:{ intros [= <- <-].
      destruct (ensure_files_traced _ _ _ E2) as (tF & HtF & FF).
      exists tD, tF, [], []. rewrite !app_nil_r.
      split; [by rewrite HtF, HtD, app_assoc|]. by repeat split. }
  destruct (ensure_files_traced _ _ _ E2) as (tF & HtF & FF).
  unfold bind at 1. rewrite os_chmod_eq.
  destruct (sys_chmod (w_fs w2) (parts "scripts/deploy.sh") (oct 7 5 5))
    as [fs3|e3].
  2:{ intros [= <- <-].
      exists tD, tF, [SysChmod (parts "scripts/deploy.sh") (oct 7 5 5)], [].
      rewrite !app_nil_r. simpl.
      split; [by rewrite HtF, HtD, <- !app_assoc|].
      repeat split; try done. by apply Forall_singleton. }
  unfold bind, print. simpl. intros [= <- <-]. simpl.
  exists tD, tF, [SysChmod (parts "scripts/deploy.sh") (oct 7 5 5)],
    [SysWrite (newline
               +:+ summary_line (length files_to_create) (length directories)
               +:+ newline);
     SysWrite (usage_hint +:+ newline)].
  split; [by rewrite HtF, HtD, <- !app_assoc|].
  split; [done|]. split; [done|]. split; [by apply Forall_singleton|].
  split; [by repeat constructor|]. intros _.
  split.
  { destruct (for_each_calls (λ d, SysMkdir (parts d) (oct 7 7 7)) directories
                (λ directory, Path_mkdir directory true true)
                Path_mkdir_first_call _ _ E1) as (t & Et & Hin).
    rewrite HtD in Et. apply app_inv_head in Et as ->. exact Hin. }
  split.
  { destruct (for_each_calls (λ f, SysUtime (parts f)) files_to_create
                (λ file_path, Path_touch file_path ;;
                              print ("Created: " +:+ file_path))
                touch_print_first_call _ _ E2) as (t & Et & Hin).
    rewrite HtF in Et. apply app_inv_head in Et as ->. exact Hin. }
  split; [done|]. split; [done|].
  exists w1. split; [done|]. split; [done|]. intros d q Hd Hq.
  assert (∃ n, namei (w_fs w1) (parts d) = Ok n ∧ i_kind n = Dir)
    as (n & Hn & Hk).
  { eapply (for_each_post grows
              (λ d w, ∃ n, namei (w_fs w) (parts d) = Ok n ∧ i_kind n = Dir));
      [apply Path_mkdir_grows| | |exact E1|exact Hd].
    - intros x v v' _ Hx. unfold Path_mkdir in Hx. by eapply Path_mkdir_rec_Ok.
    - intros x v v' (m & Hm & Hkm) G. exists m. split; [|done].
      eapply namei_mono; [apply G|done]. }
  destruct (decide (q = parts d)) as [->|Hne]; [eauto|].
  by eapply namei_prefix_dir.
Qed.

Lemma stages_in_order_witness :
  let w' := snd (create_project_structure clean_world) in
  create_project_structure clean_world = (Ok tt, w') ∧
  ∃ tD tF,
    w_trace w' =
      tD ++ tF
      ++ [ SysChmod (parts "scripts/deploy.sh") (oct 7 5 5);
           SysWrite (newline
                     +:+ summary_line (length files_to_create)
                           (length directories) +:+ newline);
           SysWrite (usage_hint +:+ newline) ] ∧
    Forall (λ c, is_dir_call c = true) tD ∧
    Forall (λ c, is_file_call c = true) tF ∧
    (∀ d, d ∈ directories → SysMkdir (parts d) (oct 7 7 7) ∈ tD) ∧
    (∀ f, f ∈ files_to_create → SysUtime (parts f) ∈ tF).
Proof.
  pose proof (returns_snd _ (clean_run_returns _ clean_world_clean)) as Hrun.
  split; [exact Hrun|].
  destruct (stages_in_order clean_world _ _ Hrun)
    as [(tD & tF & tC & tS & Ht & HD & HF & _ & _ & Hok) _].
  destruct (Hok eq_refl) as (HmD & HmF & -> & -> & _).
  exists tD, tF. by repeat split.
Defined.

(** ** A working directory that cannot be written to *)

Lemma Path_mkdir_api_read_only w cwd :
  w_fs w = {[ [] := cwd ]} → i_kind cwd = Dir → may_write cwd = false →
  Path_mkdir "api" true true w =
    (Raise EACCES,
     log (SysStat ["api"%string]) (log (SysMkdir ["api"%string] (oct 7 7 7)) w)).
Proof.
  intros Hfs Hk Hw. unfold Path_mkdir.
  change (parts "api") with ([] ++ ["api"%string]).
  rewrite Path_mkdir_rec_eq, os_mkdir_eq.
  assert (namei_parent (w_fs w) ([] ++ ["api"%string])
          = if may_exec cwd then Ok cwd else Raise EACCES) as Hpar.
  { unfold namei_parent. rewrite parent_snoc, namei_nil, Hfs, lookup_singleton_eq.
    by rewrite Hk. }
  assert (w_fs w !! ([] ++ ["api"%string]) = None) as Hapi.
  { rewrite Hfs. by apply lookup_singleton_ne. }
  assert (sys_mkdir (w_fs w) (w_umask w) ([] ++ ["api"%string]) (oct 7 7 7)
          = Raise EACCES) as ->.
  { unfold sys_mkdir. rewrite Hpar, Hapi.
    destruct (may_exec cwd); [by rewrite Hw|done]. }
  simpl. unfold bind. rewrite Path_is_dir_eq. simpl.
  change ["api"%string] with ([] ++ ["api"%string]) at 1.
  rewrite namei_snoc, Hpar, Hapi. by destruct (may_exec cwd).
Qed.

(** C7. In an empty working directory that the process may not write to,
    the first directory creation, [mkdir("api")], fails with [EACCES];
    the error ends the run there: nothing was created, nothing was
    printed, no further call was made, and the exit status is 1. *)
Theorem read_only_cwd_aborts w cwd :
  w_fs w = {[ [] := cwd ]} → i_kind cwd = Dir → may_write cwd = false →
  ∃ w', create_project_structure w = (Raise EACCES, w') ∧
    w_fs w' = w_fs w ∧
    (∀ f, f ∈ files_to_create → w_fs w' !! parts f = None) ∧
    w_stdout w' = w_stdout w ∧
    w_trace w' =
      w_trace w ++ [SysMkdir ["api"%string] (oct 7 7 7); SysStat ["api"%string]] ∧
    main w = (1, w').
Proof.
  intros Hfs Hk Hw.
  pose proof (Path_mkdir_api_read_only w cwd Hfs Hk Hw) as Hapi.
  eexists. split; [|split; [|split; [|split; [|split]]]].
  - unfold create_project_structure.
    apply bind_Raise. simpl. apply bind_Raise. exact Hapi.
  - done.
  - intros f Hf. simpl. rewrite Hfs. apply lookup_singleton_ne.
    intros Heq. by destruct (file_parent f Hf) as [Hne _].
  - done.
  - simpl. by rewrite <- app_assoc.
  - unfold main, create_project_structure.
    erewrite bind_Raise; [done|]. simpl. apply bind_Raise. exact Hapi.
Qed.

Lemma read_only_cwd_aborts_witness :
  ∃ w', create_project_structure read_only_world = (Raise EACCES, w') ∧
    w_fs w' = w_fs read_only_world ∧
    (∀ f, f ∈ files_to_create → w_fs w' !! parts f = None) ∧
    w_stdout w' = w_stdout read_only_world ∧
    w_trace w' =
      w_trace read_only_world
      ++ [SysMkdir ["api"%string] (oct 7 7 7); SysStat ["api"%string]] ∧
    main read_only_world = (1, w').
Proof.
  apply (read_only_cwd_aborts read_only_world (Inode Dir (oct 5 5 5) true));
    reflexivity.
Defined.

(** ** Errors are not handled *)

Lemma run_steps_app pre post w :
  run_steps (pre ++ post) w = (run_steps pre ;; run_steps post) w.
Proof.
  revert w. induction pre as [|s pre IH]; intros w; [done|].
  unfold run_steps in *. simpl. rewrite bind_assoc.
  apply bind_ext. intros _ v. apply IH.
Qed.

Lemma run_steps_fmap {A} (body : A → M unit) xs w :
  run_steps (body <$> xs) w = for_each xs body w.
Proof.
  revert w. induction xs as [|x xs IH]; intros w; [done|].
  unfold run_steps in *. simpl. apply bind_ext. intros _ v. apply IH.
Qed.

Lemma run_steps_pairs {A} (a b : A → M unit) xs w :
  run_steps (concat ((λ x, [a x; b x]) <$> xs)) w
  = for_each xs (λ x, a x ;; b x) w.
Proof.
  revert w. induction xs as [|x xs IH]; intros w; [done|].
  unfold run_steps in *. simpl. rewrite bind_assoc.
  apply bind_ext. intros _ v. apply bind_ext. intros _ v'. apply IH.
Qed.

(** The script is its steps in sequence. *)
Lemma create_project_structure_steps w :
  create_project_structure w = run_steps script_steps w.
Proof.
  unfold script_steps, create_project_structure.
  rewrite run_steps_app. apply bind_cong.
  { intros v. by rewrite run_steps_fmap. }
  intros _ v. rewrite run_steps_app. apply bind_cong.
  { intros v'. by rewrite run_steps_pairs. }
  intros _ v'. unfold run_steps. simpl.
  apply bind_ext. intros _ v1. apply bind_ext. intros _ v2.
  by rewrite bind_ret_r.
Qed.

(** No step is skipped over: when the steps before one have returned and
    that one raises, the sequence ends with that error in that world. *)
Lemma run_steps_abort pre step post w w1 e w2 :
  run_steps pre w = (Ok tt, w1) → step w1 = (Raise e, w2) →
  run_steps (pre ++ step :: post) w = (Raise e, w2).
Proof.
  intros Hpre Hstep. rewrite run_steps_app.
  rewrite (bind_Ok _ _ _ _ _ Hpre). unfold run_steps. simpl.
  by apply bind_Raise.
Qed.

(** X5. The mode change can be what fails: when [scripts/deploy.sh] is
    there and belongs to somebody else, no run returns ([chmod] needs the
    owner, and the script never changes owners). *)
Lemma foreign_deploy_never_returns w n w' :
  w_fs w !! deploy = Some n → i_owned n = false →
  create_project_structure w ≠ (Ok tt, w').
Proof.
  intros Hn Hforeign Hrun.
  destruct (scaffolded_deploy _ (create_project_structure_scaffolds _ _ Hrun))
    as (n1 & Hn1%namei_lookup & Hown & _).
  destruct (settles_old _ _ (create_project_structure_settles _ _ _ Hrun)
              deploy n Hn) as (n2 & Hn2 & _ & Hsame & _).
  assert (n1 = n2) as -> by congruence. congruence.
Qed.

(** C8. Nothing in the script recovers from an error or retries.  If the
    calls before the [i]-th have returned and the [i]-th raises, be it a
    directory creation, a file creation or the mode change, then the run
    raises that same error, in the world that call left (nothing runs
    after it), and the exit status is 1.  A run in which no call raises
    returns, and the exit status is 0; and only such a run exits with 0. *)
Theorem errors_abort_the_run w :
  (∀ i step w1 e w2,
     script_steps !! i = Some step →
     run_steps (take i script_steps) w = (Ok tt, w1) →
     step w1 = (Raise e, w2) →
     create_project_structure w = (Raise e, w2) ∧ main w = (1, w2)) ∧
  (∀ w', run_steps script_steps w = (Ok tt, w') →
     create_project_structure w = (Ok tt, w') ∧ main w = (0, w')) ∧
  (fst (main w) = 0 ↔ ∃ w', create_project_structure w = (Ok tt, w')).
Proof.
  split; [|split].
  - intros i step w1 e w2 Hi Hpre Hstep.
    assert (create_project_structure w = (Raise e, w2)) as Hrun.
    { rewrite create_project_structure_steps.
      rewrite <- (take_drop_middle _ _ _ Hi). by eapply run_steps_abort. }
    split; [done|]. unfold main. by rewrite Hrun.
  - intros w' Hrun. rewrite <- create_project_structure_steps in Hrun.
    split; [done|]. unfold main. by rewrite Hrun.
  - unfold main. destruct (create_project_structure w) as [[[]|e] w'] eqn:Hrun.
    + split; [eauto|done].
    + split; [done|]. by intros (v & [=]).
Qed.

(** The first step, [mkdir("api")], raising in a read-only working
    directory. *)
Lemma errors_abort_the_run_witness :
  create_project_structure read_only_world
    = (Raise EACCES,
       log (SysStat ["api"%string])
         (log (SysMkdir ["api"%string] (oct 7 7 7)) read_only_world)) ∧
  main read_only_world
    = (1, log (SysStat ["api"%string])
            (log (SysMkdir ["api"%string] (oct 7 7 7)) read_only_world)).
Proof.
  destruct (errors_abort_the_run read_only_world) as [Habort _].
  apply (Habort 0%nat (Path_mkdir "api" true true) read_only_world).
  - reflexivity.
  - reflexivity.
  - by apply (Path_mkdir_api_read_only _ (Inode Dir (oct 5 5 5) true)).
Defined.

(** ** The report *)

(** C9, as the specification words it, fails: the script prints
    ["\nCreated ..."], so an empty line comes between the last
    [Created: ...] line and the summary line.  The run from the empty
    working directory [clean_world] shows it. *)
Lemma report_has_blank_line :
  ¬ (∀ w w', w_stdout w = EmptyString →
             create_project_structure w = (Ok tt, w') → report_as_specified w').
Proof.
  intros Hspec.
  destruct (clean_run_returns _ clean_world_clean) as (w' & Hrun).
  specialize (Hspec clean_world w' eq_refl Hrun). unfold report_as_specified in Hspec.
  rewrite (create_project_structure_stdout _ _ Hrun) in Hspec.
  change (w_stdout clean_world +:+ report) with report in Hspec.
  rewrite lines_report in Hspec.
  apply app_inv_head in Hspec. discriminate Hspec.
Qed.

(** C9, amended.  On every run that returns, standard output gains one
    line [Created: <path>] per manifest file, then an empty line, then the
    line [Created N files and M directories] with [N] and [M] the lengths
    of the two lists, then the usage hint. *)
Theorem report_lines w w' :
  create_project_structure w = (Ok tt, w') →
  w_stdout w' = w_stdout w +:+ report ∧
  lines report =
    (created_line <$> files_to_create)
    ++ [ EmptyString;
         summary_line (length files_to_create) (length directories);
         usage_hint ].
Proof.
  intros Hrun. split; [by apply create_project_structure_stdout|].
  apply lines_report.
Qed.

Lemma report_lines_witness :
  let w' := snd (create_project_structure clean_world) in
  create_project_structure clean_world = (Ok tt, w') ∧
  w_stdout w' = w_stdout clean_world +:+ report ∧
  lines report =
    (created_line <$> files_to_create)
    ++ [ EmptyString;
         summary_line (length files_to_create) (length directories);
         usage_hint ].
Proof.
  pose proof (returns_snd _ (clean_run_returns _ clean_world_clean)) as Hrun.
  exact (conj Hrun (report_lines clean_world _ Hrun)).
Defined.

(** C10. Whatever was there before, a run that returns prints the same
    text.  Its [Created: ...] lines are exactly 13, one per manifest file
    in manifest order, and its summary line carries the lengths of the
    two lists, 13 and 5. *)
Theorem report_is_static w w' :
  create_project_structure w = (Ok tt, w') →
  w_stdout w' = w_stdout w +:+ report ∧
  filter (λ l, starts_with "Created: " l = true) (lines report)
    = created_line <$> files_to_create ∧
  length (filter (λ l, starts_with "Created: " l = true) (lines report)) = 13%nat ∧
  summary_line (length files_to_create) (length directories)
    = "Created 13 files and 5 directories"%string ∧
  summary_line (length files_to_create) (length directories) ∈ lines report.
Proof.
  intros Hrun. split; [by apply create_project_structure_stdout|].
  rewrite lines_report. split; [by vm_compute|]. split; [by vm_compute|].
  split; [done|]. apply elem_of_app. right. right. left.
Qed.

Lemma report_is_static_witness :
  let w1 := snd (create_project_structure clean_world) in
  let w2 := snd (create_project_structure placeholder_world) in
  (create_project_structure clean_world = (Ok tt, w1) ∧
   w_stdout w1 = w_stdout clean_world +:+ report) ∧
  (create_project_structure placeholder_world = (Ok tt, w2) ∧
   w_stdout w2 = w_stdout placeholder_world +:+ report).
Proof.
  pose proof (returns_snd _ (clean_run_returns _ clean_world_clean)) as Hrun1.
  pose proof (returns_snd _ placeholder_world_returns) as Hrun2.
  split.
  - exact (conj Hrun1 (proj1 (report_is_static clean_world _ Hrun1))).
  - exact (conj Hrun2 (proj1 (report_is_static placeholder_world _ Hrun2))).
Defined.

(** * Further properties of the script *)

(** ** Runs that return, beyond the empty directory *)

(** X1. The run does not need an empty directory.  It returns, with exit
    status 0, the whole report printed and everything scaffolded,
    whenever the process may enter and write the working directory, owns
    whatever is below it, finds at the manifest directories and above
    them nothing but directories it may enter and write, and has a umask
    that leaves it the use of the directories it makes. *)
Theorem tidy_run_scaffolds cwd um w :
  good cwd → umask_ok um = true → tidy cwd um w →
  ∃ w', create_project_structure w = (Ok tt, w') ∧
        main w = (0, w') ∧
        scaffolded (w_fs w') ∧
        w_stdout w' = w_stdout w +:+ report.
Proof.
  intros Hgood Hum Htidy.
  destruct (create_project_structure_returns cwd um Hgood Hum w Htidy)
    as (w' & Hrun).
  exists w'. split; [done|]. split; [unfold main; by rewrite Hrun|].
  split; [by eapply create_project_structure_scaffolds|].
  by apply create_project_structure_stdout.
Qed.

Lemma tidy_run_scaffolds_witness :
  ∃ w', create_project_structure placeholder_world = (Ok tt, w') ∧
        main placeholder_world = (0, w') ∧
        scaffolded (w_fs w') ∧
        w_stdout w' = w_stdout placeholder_world +:+ report.
Proof.
  apply (tidy_run_scaffolds (Inode Dir (oct 7 5 5) true) (oct 0 2 2)
           placeholder_world).
  - by vm_compute.
  - reflexivity.
  - exact placeholder_world_tidy.
Defined.

(** ** What a run can have created *)

(** X2. A run creates nothing outside the manifest.  Whatever is in the
    filesystem after a run, returned or aborted, and was not there
    before, belongs to the process and is either a directory at a
    manifest directory or above one, with mode [0o777] less the umask, or
    an empty regular file at a manifest file, with mode [0o666] less the
    umask unless it is [scripts/deploy.sh]. *)
Theorem run_creates_only_manifest_entries w r w' q n' :
  create_project_structure w = (r, w') →
  w_fs w !! q = None → w_fs w' !! q = Some n' →
  i_owned n' = true ∧
  ((i_kind n' = Dir ∧ i_mode n' = creation_mode (oct 7 7 7) (w_umask w) ∧
    ∃ d, d ∈ directories ∧ q `prefix_of` parts d) ∨
   (i_kind n' = File EmptyString ∧
    ∃ f, f ∈ files_to_create ∧ q = parts f ∧
         (f ≠ "scripts/deploy.sh"%string →
          i_mode n' = creation_mode (oct 6 6 6) (w_umask w)))).
Proof.
  intros Hrun Hq Hq'.
  pose proof (settles_new _ _ (create_project_structure_settles _ _ _ Hrun)
                q n' Hq' Hq) as Hnew.
  destruct (decide (q = deploy)) as [->|Hne].
  - destruct Hnew as [Hk Ho]. split; [done|]. right. split; [done|].
    exists "scripts/deploy.sh"%string. split; [apply deploy_in_files|].
    split; [done|]. by intros [].
  - destruct Hnew as [[-> Hd]|[-> (f & Hf & ->)]]; (split; [done|]).
    + left. by repeat split.
    + right. split; [done|]. exists f. by repeat split.
Qed.

Lemma run_creates_only_manifest_entries_witness :
  let w' := snd (create_project_structure clean_world) in
  ∃ n', w_fs w' !! parts "k8s" = Some n' ∧
    i_owned n' = true ∧
    ((i_kind n' = Dir ∧ i_mode n' = creation_mode (oct 7 7 7) (oct 0 2 2) ∧
      ∃ d, d ∈ directories ∧ parts "k8s" `prefix_of` parts d) ∨
     (i_kind n' = File EmptyString ∧
      ∃ f, f ∈ files_to_create ∧ parts "k8s" = parts f ∧
           (f ≠ "scripts/deploy.sh"%string →
            i_mode n' = creation_mode (oct 6 6 6) (oct 0 2 2)))).
Proof.
  pose proof (returns_snd _ (clean_run_returns _ clean_world_clean)) as Hrun.
  destruct (scaffolded_dirs _ (create_project_structure_scaffolds _ _ Hrun)
              "k8s"%string) as (n' & Hn'%namei_lookup & _).
  { apply (bool_decide_unpack _). vm_compute. exact I. }
  exists n'. split; [exact Hn'|].
  apply (run_creates_only_manifest_entries clean_world _ _ (parts "k8s") n' Hrun).
  - by apply lookup_singleton_ne.
  - exact Hn'.
Defined.

(** ** No rollback *)

Lemma Forall_concat_pairs {A B} (P : B → Prop) (a b : A → B) (xs : list A) :
  (∀ x, x ∈ xs → P (a x) ∧ P (b x)) →
  Forall P (concat ((λ x, [a x; b x]) <$> xs)).
Proof.
  induction xs as [|x xs IH]; intros H; simpl; [constructor|].
  destruct (H x) as [Ha Hb]; [left|].
  constructor; [done|]. constructor; [done|].
  apply IH. intros y Hy. apply H. by right.
Qed.

(** Every call of the script keeps what is there. *)
Lemma script_steps_settle : Forall (respects settles) script_steps.
Proof.
  unfold script_steps. apply Forall_app. split; [|apply Forall_app; split].
  - apply Forall_fmap, Forall_forall. intros d Hd. simpl.
    eapply respects_weaken; [apply grows_settles|by apply Path_mkdir_grows].
  - apply Forall_concat_pairs. intros f Hf. split.
    + eapply respects_weaken; [apply grows_settles|by apply Path_touch_grows].
    + apply print_settles.
  - constructor; [apply os_chmod_settles|].
    constructor; [apply print_settles|].
    constructor; [apply print_settles|constructor].
Qed.

(** X3. There is no rollback.  Whatever is in the filesystem once the
    first [i] calls of the script have returned is still there when the
    run ends, with the same kind (and contents) and the same owner,
    whether the run returns or is aborted by a later call. *)
Theorem completed_steps_are_kept w i w1 r w' q n :
  run_steps (take i script_steps) w = (Ok tt, w1) →
  create_project_structure w = (r, w') →
  w_fs w1 !! q = Some n →
  ∃ n', w_fs w' !! q = Some n' ∧ i_kind n' = i_kind n ∧ i_owned n' = i_owned n.
Proof.
  intros Hpre Hrun Hq.
  rewrite create_project_structure_steps in Hrun.
  rewrite <- (take_drop i script_steps), run_steps_app in Hrun.
  rewrite (bind_Ok _ _ _ _ _ Hpre) in Hrun.
  assert (settles w1 w') as [_ Hold _].
  { eapply (respects_for_each settles); [|exact Hrun].
    intros step Hstep. simpl.
    pose proof (Forall_drop _ i _ script_steps_settle) as Hall.
    rewrite Forall_forall in Hall. by apply Hall. }
  destruct (Hold q n Hq) as (n' & Hn' & Hk & Ho & _). eauto.
Qed.

(** At the top of a working directory the process may write to,
    [Path.mkdir] makes a directory that is not there. *)
Lemma Path_mkdir_top_fresh d c w cwd :
  parts d = [c] → w_fs w !! ([] : path) = Some cwd → good cwd →
  w_fs w !! [c] = None →
  Path_mkdir d true true w
  = (Ok tt, set_fs (<[ [c] := new_dir (w_umask w) ]> (w_fs w))
              (log (SysMkdir [c] (oct 7 7 7)) w)).
Proof.
  intros Hd Hcwd (Hk & Hx & Hw) Hc. unfold Path_mkdir. rewrite Hd.
  rewrite Path_mkdir_rec_eq, os_mkdir_eq. unfold sys_mkdir.
  rewrite (namei_parent_intro _ [c] cwd); [|by rewrite namei_nil, Hcwd|done..].
  by rewrite Hc, Hw.
Qed.

(** A run in which a regular file sits at a manifest directory, or above
    one, does not return. *)
Lemma file_in_the_way_never_returns w d q n c w' :
  d ∈ directories → q `prefix_of` parts d →
  w_fs w !! q = Some n → i_kind n = File c →
  create_project_structure w ≠ (Ok tt, w').
Proof.
  intros Hd Hq Hn Hk Hrun.
  destruct (scaffolded_dirs _ (create_project_structure_scaffolds _ _ Hrun) d Hd)
    as (m & Hm & Hkm).
  assert (∃ m', namei (w_fs w') q = Ok m' ∧ i_kind m' = Dir) as (m' & Hm' & Hkm').
  { destruct (decide (q = parts d)) as [->|Hne]; [eauto|].
    by eapply namei_prefix_dir. }
  destruct (settles_old _ _ (create_project_structure_settles _ _ _ Hrun) q n Hn)
    as (n' & Hn' & Hkn' & _).
  apply namei_lookup in Hm'. congruence.
Qed.

Lemma not_returning_raises w :
  (∀ w', create_project_structure w ≠ (Ok tt, w')) →
  ∃ e w', create_project_structure w = (Raise e, w') ∧ main w = (1, w').
Proof.
  intros Hno. unfold main.
  destruct (create_project_structure w) as [[[]|e] w'] eqn:Hrun.
  - by destruct (Hno w').
  - eauto.
Qed.

Lemma completed_steps_are_kept_witness :
  let w' := snd (create_project_structure blocked_world) in
  (∃ e, create_project_structure blocked_world = (Raise e, w')) ∧
  ∃ n', w_fs w' !! ["api"%string] = Some n' ∧
        i_kind n' = Dir ∧ i_owned n' = true.
Proof.
  split.
  - destruct (not_returning_raises blocked_world) as (e & v & Hrun & _).
    + intros v. apply (file_in_the_way_never_returns _ "worker"%string
                         ["worker"%string] (Inode (File "notes") (oct 6 4 4) true)
                         "notes"%string).
      * apply (bool_decide_unpack _). vm_compute. exact I.
      * done.
      * apply lookup_insert_eq.
      * reflexivity.
    + exists e. by rewrite Hrun.
  - apply (completed_steps_are_kept blocked_world 1
             (set_fs (<[ ["api"%string] := new_dir (w_umask blocked_world) ]>
                        (w_fs blocked_world))
                (log (SysMkdir ["api"%string] (oct 7 7 7)) blocked_world))
             (fst (create_project_structure blocked_world))
             (snd (create_project_structure blocked_world))
             ["api"%string] (new_dir (w_umask blocked_world))).
    + change (take 1 script_steps) with [Path_mkdir "api" true true].
      change (run_steps [Path_mkdir "api" true true] blocked_world)
        with (bind (Path_mkdir "api" true true) (λ _, ret tt) blocked_world).
      rewrite bind_ret_r.
      apply (Path_mkdir_top_fresh "api" "api" blocked_world
               (Inode Dir (oct 7 5 5) true)).
      * reflexivity.
      * simpl. rewrite lookup_insert_ne by done. apply lookup_singleton_eq.
      * by vm_compute.
      * simpl. rewrite lookup_insert_ne by done. by apply lookup_singleton_ne.
    + by destruct (create_project_structure blocked_world).
    + apply lookup_insert_eq.
Defined.

(** ** Paths that are taken *)

(** X4. A regular file at a manifest directory, or at a directory above
    one, stops the run: [Path.mkdir(exist_ok=True)] accepts only a
    directory.  The run raises, the exit status is 1, and the file is
    still there with its contents. *)
Theorem file_at_directory_path_aborts w d q n c :
  d ∈ directories → q `prefix_of` parts d →
  w_fs w !! q = Some n → i_kind n = File c →
  ∃ e w', create_project_structure w = (Raise e, w') ∧
          main w = (1, w') ∧
          ∃ n', w_fs w' !! q = Some n' ∧ i_kind n' = File c.
Proof.
  intros Hd Hq Hn Hk.
  destruct (not_returning_raises w) as (e & w' & Hrun & Hmain).
  { intros v. by eapply file_in_the_way_never_returns. }
  exists e, w'. split; [done|]. split; [done|].
  destruct (settles_old _ _ (create_project_structure_settles _ _ _ Hrun) q n Hn)
    as (n' & Hn' & Hk' & _).
  exists n'. split; [done|]. congruence.
Qed.

Lemma file_at_directory_path_aborts_witness :
  ∃ e w', create_project_structure blocked_world = (Raise e, w') ∧
          main blocked_world = (1, w') ∧
          ∃ n', w_fs w' !! ["worker"%string] = Some n' ∧
                i_kind n' = File "notes".
Proof.
  apply (file_at_directory_path_aborts blocked_world "worker"%string
           ["worker"%string] (Inode (File "notes") (oct 6 4 4) true)).
  - apply (bool_decide_unpack _). vm_compute. exact I.
  - done.
  - apply lookup_insert_eq.
  - reflexivity.
Defined.

Lemma foreign_deploy_never_returns_witness :
  create_project_structure foreign_deploy_world
  ≠ (Ok tt, snd (create_project_structure foreign_deploy_world)).
Proof.
  apply (foreign_deploy_never_returns foreign_deploy_world
           (Inode (File EmptyString) (oct 6 6 6) false)).
  - apply lookup_insert_eq.
  - reflexivity.
Defined.

(** X6. A directory at a manifest file path is accepted: [Path.touch]
    only bumps its timestamps.  In a tidy state the run returns all the
    same, reports the path as created, and leaves the directory a
    directory. *)
Theorem directory_at_file_path_is_kept cwd um w f n :
  good cwd → umask_ok um = true → tidy cwd um w →
  f ∈ files_to_create → w_fs w !! parts f = Some n → i_kind n = Dir →
  ∃ w', create_project_structure w = (Ok tt, w') ∧
        (∃ n', sys_stat (w_fs w') (parts f) = Ok n' ∧ i_kind n' = Dir) ∧
        w_stdout w' = w_stdout w +:+ report ∧
        created_line f ∈ lines report.
Proof.
  intros Hgood Hum Htidy Hf Hn Hk.
  destruct (create_project_structure_returns cwd um Hgood Hum w Htidy)
    as (w' & Hrun).
  exists w'. split; [done|]. split; [|split].
  - destruct (scaffolded_files _ (create_project_structure_scaffolds _ _ Hrun)
                f Hf) as (n' & Hn' & _).
    exists n'. split; [done|].
    destruct (settles_old _ _ (create_project_structure_settles _ _ _ Hrun)
                (parts f) n Hn) as (n2 & Hn2 & Hk2 & _).
    apply namei_lookup in Hn'. congruence.
  - by apply create_project_structure_stdout.
  - rewrite lines_report. apply elem_of_app. left.
    by apply list_elem_of_fmap_2.
Qed.

Lemma directory_at_file_path_is_kept_witness :
  ∃ w', create_project_structure makefile_dir_world = (Ok tt, w') ∧
        (∃ n', sys_stat (w_fs w') (parts "Makefile") = Ok n' ∧ i_kind n' = Dir) ∧
        w_stdout w' = w_stdout makefile_dir_world +:+ report ∧
        created_line "Makefile" ∈ lines report.
Proof.
  apply (directory_at_file_path_is_kept (Inode Dir (oct 7 5 5) true) (oct 0 2 2)
           makefile_dir_world "Makefile"%string (Inode Dir (oct 7 5 5) true)).
  - by vm_compute.
  - reflexivity.
  - split; [done|]. split; [done|]. simpl. intros q n Hq Hne.
    apply lookup_insert_Some in Hq as [[<- <-]|[_ Hq]].
    + split; [done|]. intros _ _ _. by vm_compute.
    + by apply lookup_singleton_Some in Hq as [<- _].
  - apply (bool_decide_unpack _). vm_compute. exact I.
  - apply lookup_insert_eq.
  - reflexivity.
Defined.

(** ** What an aborted run has printed *)

Lemma created_text_cons f fs :
  created_text (f :: fs) = created_line f +:+ newline +:+ created_text fs.
Proof. reflexivity. Qed.

(** The file loop, wherever it stops: it has printed the lines of the
    files it got through, and those files are there. *)
Lemma ensure_files_progress xs w r w' :
  (∀ f, f ∈ xs → f ∈ files_to_create) →
  for_each xs (λ file_path,
    Path_touch file_path ;; print ("Created: " +:+ file_path)) w = (r, w') →
  ∃ k, w_stdout w' = w_stdout w +:+ created_text (take k xs) ∧
       (∀ f, f ∈ take k xs → ∃ n, namei (w_fs w') (parts f) = Ok n) ∧
       (r = Ok tt → take k xs = xs).
Proof.
  revert w. induction xs as [|f xs IH]; intros w Hsub; simpl.
  - intros [= <- <-]. exists 0%nat. simpl. rewrite string_app_nil_r.
    split; [done|]. split; [|done]. intros f Hf. by apply elem_of_nil in Hf.
  - unfold bind at 1. unfold bind at 1.
    destruct (Path_touch f w) as [[[]|e] w0] eqn:Ht.
    + pose proof (Path_touch_quiet _ _ _ _ Ht) as Hq0.
      unfold print at 1.
      set (w1 := World (w_fs w0) (w_umask w0)
                   (w_stdout w0 +:+ ("Created: " +:+ f) +:+ newline)
                   (w_trace w0 ++ [SysWrite (("Created: " +:+ f) +:+ newline)])).
      intros Hrest.
      destruct (IH w1) as (k & Hout & Hex & Hall); [|exact Hrest|].
      { intros g Hg. apply Hsub. by right. }
      exists (S k). change (take (S k) (f :: xs)) with (f :: take k xs).
      split; [|split].
      * rewrite Hout, created_text_cons. unfold w1. cbn [w_stdout]. rewrite Hq0.
        unfold created_line. by rewrite !string_app_assoc.
      * intros g [->|Hg]%elem_of_cons; [|by apply Hex].
        unfold Path_touch in Ht.
        destruct (Path_touch_at_Ok _ _ _ _ Ht) as (n & Hn & _).
        exists n. eapply namei_mono; [|exact Hn].
        change (w_fs w0) with (w_fs w1). apply grows_fs.
        eapply (respects_for_each grows); [|exact Hrest].
        intros g Hg. apply (respects_bind grows).
        -- apply Path_touch_grows, Hsub. by right.
        -- intros _. apply print_grows.
      * intros Hr. by rewrite (Hall Hr).
    + intros [= <- <-]. exists 0%nat. simpl. rewrite string_app_nil_r.
      split; [by apply (Path_touch_quiet _ _ _ _ Ht)|].
      split; [|done]. intros g Hg. by apply elem_of_nil in Hg.
Qed.

(** No manifest path has a newline in it: the text of the first [k] lines
    splits into those lines. *)
Lemma lines_created_text_take k :
  lines (created_text (take k files_to_create))
  = created_line <$> take k files_to_create.
Proof.
  do 14 (destruct k as [|k]; [by vm_compute|]). by vm_compute.
Qed.

(** X7. An aborted run never prints the summary.  What it has printed is
    the [Created: ...] lines of the manifest files it got through, a
    beginning of the manifest in manifest order, and nothing else; and
    every file it has reported is there. *)
Theorem aborted_run_report w e w' :
  create_project_structure w = (Raise e, w') →
  ∃ reported,
    reported `prefix_of` files_to_create ∧
    w_stdout w' = w_stdout w +:+ created_text reported ∧
    lines (created_text reported) = created_line <$> reported ∧
    ∀ f, f ∈ reported → ∃ n, sys_stat (w_fs w') (parts f) = Ok n.
Proof.
  unfold create_project_structure. unfold bind at 1.
  destruct (for_each directories _ w) as [[[]|e1] w1] eqn:E1.
  2:{ intros [= <- <-]. exists []. split; [apply prefix_nil|].
      split; [|split; [done|]].
      - simpl. rewrite string_app_nil_r. by apply ensure_directories_quiet in E1.
      - intros f Hf. by apply elem_of_nil in Hf. }
  apply ensure_directories_quiet in E1. unfold bind at 1.
  destruct (for_each files_to_create _ w1) as [[[]|e2] w2] eqn:E2;
    destruct (ensure_files_progress _ _ _ _ (λ f Hf, Hf) E2)
      as (k & Hout & Hex & Hall).
  2:{ intros [= <- <-]. exists (take k files_to_create).
      split; [apply prefix_take|]. split; [by rewrite Hout, E1|].
      split; [apply lines_created_text_take|exact Hex]. }
  rewrite (Hall eq_refl) in Hout, Hex.
  unfold bind at 1. rewrite os_chmod_eq.
  destruct (sys_chmod (w_fs w2) (parts "scripts/deploy.sh") (oct 7 5 5)); [done|].
  intros [= <- <-]. exists files_to_create. split; [done|].
  split; [by rewrite <- E1|].
  split; [|exact Hex].
  rewrite <- (take_ge files_to_create 13) by done. apply lines_created_text_take.
Qed.

Lemma aborted_run_report_witness :
  ∃ e w' reported,
    create_project_structure blocked_world = (Raise e, w') ∧
    reported `prefix_of` files_to_create ∧
    w_stdout w' = w_stdout blocked_world +:+ created_text reported ∧
    lines (created_text reported) = created_line <$> reported ∧
    ∀ f, f ∈ reported → ∃ n, sys_stat (w_fs w') (parts f) = Ok n.
Proof.
  destruct (not_returning_raises blocked_world) as (e & w' & Hrun & _).
  { intros v. apply (file_in_the_way_never_returns _ "worker"%string
                       ["worker"%string] (Inode (File "notes") (oct 6 4 4) true)
                       "notes"%string).
    - apply (bool_decide_unpack _). vm_compute. exact I.
    - done.
    - apply lookup_insert_eq.
    - reflexivity. }
  destruct (aborted_run_report blocked_world e w' Hrun) as (reported & H).
  exists e, w', reported. by split.
Defined.

(** ** The calls of a second run *)

Lemma rerun_directories ds w :
  (∀ d, d ∈ ds → ∃ n, namei (w_fs w) (parts d) = Ok n ∧ i_kind n = Dir) →
  for_each ds (λ directory, Path_mkdir directory true true) w
  = (Ok tt,
     World (w_fs w) (w_umask w) (w_stdout w)
       (w_trace w
        ++ concat ((λ d, [ SysMkdir (parts d) (oct 7 7 7); SysStat (parts d) ])
                   <$> ds))).
Proof.
  revert w. induction ds as [|d ds IH]; intros w Hds.
  - simpl. rewrite app_nil_r. by destruct w.
  - destruct (Hds d) as (n & Hn & Hk); [left|].
    change (for_each (d :: ds) (λ directory, Path_mkdir directory true true) w)
      with (bind (Path_mkdir d true true)
              (λ _, for_each ds (λ directory, Path_mkdir directory true true)) w).
    unfold bind, Path_mkdir at 1.
    rewrite (Path_mkdir_rec_exists _ _ _ _ _ _ Hn Hk).
    rewrite IH.
    + simpl. by rewrite <- !app_assoc.
    + intros d' Hd'. apply Hds. by right.
Qed.

Lemma rerun_files fs w :
  (∀ f, f ∈ fs → ∃ n, namei (w_fs w) (parts f) = Ok n ∧ touchable n = true) →
  for_each fs (λ file_path,
    Path_touch file_path ;; print ("Created: " +:+ file_path)) w
  = (Ok tt,
     World (w_fs w) (w_umask w) (w_stdout w +:+ created_text fs)
       (w_trace w
        ++ concat ((λ f, [ SysUtime (parts f);
                           SysWrite (created_line f +:+ newline) ])
                   <$> fs))).
Proof.
  revert w. induction fs as [|f fs IH]; intros w Hfs.
  - simpl. rewrite app_nil_r, string_app_nil_r. by destruct w.
  - destruct (Hfs f) as (n & Hn & Ht); [left|].
    change (for_each (f :: fs) ?body w)
      with (bind (body f) (λ _, for_each fs body) w).
    unfold bind at 1. unfold bind at 1. unfold Path_touch at 1.
    rewrite (Path_touch_at_exists _ _ _ _ Hn Ht).
    unfold print at 1. rewrite IH.
    + rewrite created_text_cons. unfold created_line. simpl.
      by rewrite <- !app_assoc, !string_app_assoc.
    + intros f' Hf'. apply Hfs. by right.
Qed.

(** X8. On a state in which everything is in place (such as a first run
    leaves), the run only probes: per directory a [mkdir] that finds it
    there and a [stat], per file a [utimensat] and its line, then the
    [chmod] and the summary.  These are 39 calls, none of them an [open];
    the filesystem is as it was and the whole report is printed. *)
Theorem rerun_only_probes w :
  scaffolded (w_fs w) →
  create_project_structure w
  = (Ok tt,
     World (w_fs w) (w_umask w) (w_stdout w +:+ report)
       (w_trace w ++ rerun_trace)) ∧
  length rerun_trace = 39%nat ∧
  Forall (λ c, is_open_call c = false) rerun_trace.
Proof.
  intros [Hdirs Hfiles (nd & Hnd & Hown & Hmode)].
  split; [|split; [by vm_compute|apply (bool_decide_unpack _); by vm_compute]].
  unfold create_project_structure.
  rewrite (bind_Ok _ _ _ _ _ (rerun_directories directories w Hdirs)).
  erewrite bind_Ok; [|by apply rerun_files].
  erewrite bind_Ok;
    [|by apply (os_chmod_same "scripts/deploy.sh" (oct 7 5 5) _ nd)].
  unfold bind, print, rerun_trace, report, summary_line, deploy. simpl.
  by rewrite <- !app_assoc, !string_app_assoc.
Qed.

Lemma rerun_only_probes_witness :
  let w1 := snd (create_project_structure clean_world) in
  create_project_structure w1
  = (Ok tt,
     World (w_fs w1) (w_umask w1) (w_stdout w1 +:+ report)
       (w_trace w1 ++ rerun_trace)) ∧
  length rerun_trace = 39%nat ∧
  Forall (λ c, is_open_call c = false) rerun_trace.
Proof.
  pose proof (returns_snd _ (clean_run_returns _ clean_world_clean)) as Hrun.
  apply (rerun_only_probes (snd (create_project_structure clean_world))).
  exact (create_project_structure_scaffolds _ _ Hrun).
Defined.

(** ** The umask *)

(** What the script makes under such a umask is of no use to it. *)
Lemma created_not_usable um q n :
  umask_ok um = false → created um q n → usable n = false.
Proof.
  intros Hum [[-> _]|[-> _]].
  - rewrite <- Hum.
    unfold usable, umask_ok, may_exec, may_write, access_class, new_dir,
      creation_mode.
    cbn [i_kind i_mode i_owned].
    rewrite !Z.shiftr_spec, !Z.land_spec, !Z.lnot_spec by lia.
    change (0 + 6) with 6. change (1 + 6) with 7.
    by destruct (Z.testbit um 6), (Z.testbit um 7).
  - unfold usable, may_exec, access_class, new_file, creation_mode.
    cbn [i_kind i_mode i_owned].
    rewrite !Z.shiftr_spec, !Z.land_spec by lia.
    change (0 + 6) with 6. done.
Qed.

#[global] Instance rooted_preorder : PreOrder rooted.
Proof.
  split.
  - intros w. split; [reflexivity|]. intros _ q n ? ?; congruence.
  - intros w1 w2 w3 [G1 N1] [G2 N2]. split; [by etrans|].
    intros Hum q n H3 H1.
    destruct (w_fs w2 !! q) as [m|] eqn:H2; [by eapply N1|].
    destruct (N2 (eq_trans (f_equal umask_ok (grows_umask _ _ G1)) Hum)
                q n H3 H2) as (d & Hd & Hu).
    destruct (w_fs w1 !! parent q) as [d1|] eqn:Hd1.
    + rewrite (lookup_weaken _ _ _ _ Hd1 (grows_fs _ _ G1)) in Hd.
      injection Hd as <-. eauto.
    + pose proof (grows_new _ _ G1 _ _ Hd Hd1) as Hc.
      by rewrite (created_not_usable _ _ _ Hum Hc) in Hu.
Qed.

Lemma rooted_same_fs w w' :
  w_umask w' = w_umask w → w_fs w' = w_fs w → rooted w w'.
Proof.
  intros Hu Hf. split; [by apply grows_same_fs|].
  intros _ q n. rewrite Hf. congruence.
Qed.

Lemma os_mkdir_rooted p :
  (∃ d, d ∈ directories ∧ p `prefix_of` parts d) →
  respects rooted (os_mkdir p (oct 7 7 7)).
Proof.
  intros Hp w r w' Hrun. split; [by eapply os_mkdir_grows|].
  intros _ q n. revert Hrun. rewrite os_mkdir_eq.
  destruct (sys_mkdir (w_fs w) (w_umask w) p (oct 7 7 7)) as [fs'|e] eqn:E;
    intros [= _ <-]; simpl; [|congruence].
  apply sys_mkdir_Ok in E as (d & Hd & Hw & Hnone & _ & ->).
  apply namei_parent_Ok in Hd as (Hd%namei_lookup & _ & Hx).
  destruct (decide (p = q)) as [<-|Hne].
  - intros _ _. exists d. split; [done|]. unfold usable. by rewrite Hx, Hw.
  - rewrite lookup_insert_ne by done. congruence.
Qed.

Lemma lift_query_rooted {A} (c : syscall) (f : gmap path inode → outcome A) :
  respects rooted (lift_query c f).
Proof. intros w r w' [= _ <-]. by apply rooted_same_fs. Qed.

Lemma ensure_directories_rooted :
  respects rooted (for_each directories (λ directory, Path_mkdir directory true true)).
Proof.
  apply (respects_for_each rooted). intros d Hd.
  apply (Path_mkdir_rec_respects rooted).
  - intros q m Hq Hm. assert (m = oct 7 7 7) as -> by (by destruct Hm).
    apply os_mkdir_rooted. eauto.
  - intros q _. apply lift_query_rooted.
Qed.

(** X9. In an empty working directory that the process may enter and
    write to, the run returns exactly when the umask leaves the owner's
    write and search bits alone.  Under any other umask the script cannot
    use the directories it has just made: [.github/workflows] cannot be
    made inside the new [.github], and the run is aborted. *)
Theorem empty_directory_run_needs_umask w cwd :
  w_fs w = {[ [] := cwd ]} → good cwd →
  ((∃ w', create_project_structure w = (Ok tt, w'))
   ↔ umask_ok (w_umask w) = true).
Proof.
  intros Hfs Hgood. split.
  2:{ intros Hum. apply clean_run_returns. by exists cwd. }
  intros (w' & Hrun). destruct (umask_ok (w_umask w)) eqn:Hum; [done|exfalso].
  apply create_project_structure_Ok_inv in Hrun as (w1 & _ & _ & H1 & _).
  destruct (for_each_post grows
              (λ d v, ∃ n, namei (w_fs v) (parts d) = Ok n ∧ i_kind n = Dir)
              directories (λ directory, Path_mkdir directory true true))
    with (w := w) (w' := w1) (x := ".github/workflows"%string)
    as (n & Hn%namei_lookup & _).
  - apply Path_mkdir_grows.
  - intros x v v' _ Hx. unfold Path_mkdir in Hx. by eapply Path_mkdir_rec_Ok.
  - intros x v v' (m & Hm & Hk) G. exists m. split; [|done].
    eapply namei_mono; [apply G|done].
  - done.
  - apply (bool_decide_unpack _). vm_compute. exact I.
  - destruct (rooted_new _ _ (ensure_directories_rooted _ _ _ H1) Hum
                (parts ".github/workflows") n Hn) as (d & Hd & _).
    + rewrite Hfs. by apply lookup_singleton_ne.
    + rewrite Hfs in Hd. by apply lookup_singleton_Some in Hd as [? _].
Qed.

Lemma empty_directory_run_needs_umask_witness :
  ((∃ w', create_project_structure clean_world = (Ok tt, w'))
   ↔ umask_ok (oct 0 2 2) = true) ∧
  ((∃ w', create_project_structure
            (World {[ [] := Inode Dir (oct 7 5 5) true ]} (oct 2 2 2)
               EmptyString []) = (Ok tt, w'))
   ↔ umask_ok (oct 2 2 2) = true) ∧
  umask_ok (oct 0 2 2) = true ∧ umask_ok (oct 2 2 2) = false.
Proof.
  split; [|split; [|by vm_compute]].
  - apply (empty_directory_run_needs_umask clean_world
             (Inode Dir (oct 7 5 5) true)); [reflexivity|by vm_compute].
  - apply (empty_directory_run_needs_umask
             (World {[ [] := Inode Dir (oct 7 5 5) true ]} (oct 2 2 2)
                EmptyString [])
             (Inode Dir (oct 7 5 5) true)); [reflexivity|by vm_compute].
Defined.

(** Under a umask that takes the owner's write or search bit, a run from
    an empty working directory is aborted in the directory loop, and
    [.github/workflows] is not there afterwards: it would have had to go
    into the new [.github]. *)
Lemma unusable_umask_aborts w cwd :
  w_fs w = {[ [] := cwd ]} → umask_ok (w_umask w) = false →
  ∃ e w', create_project_structure w = (Raise e, w') ∧
          w_fs w' !! parts ".github/workflows" = None.
Proof.
  intros Hfs Hum. unfold create_project_structure. unfold bind at 1.
  destruct (for_each directories _ w) as [r w1] eqn:H1.
  assert (w_fs w1 !! parts ".github/workflows" = None) as Hnone.
  { destruct (w_fs w1 !! parts ".github/workflows") as [n|] eqn:Hn; [|done].
    destruct (rooted_new _ _ (ensure_directories_rooted _ _ _ H1) Hum
                (parts ".github/workflows") n Hn) as (d & Hd & _).
    - rewrite Hfs. by apply lookup_singleton_ne.
    - rewrite Hfs in Hd. by apply lookup_singleton_Some in Hd as [? _]. }
  destruct r as [[]|e]; [exfalso|eauto].
  destruct (for_each_post grows
              (λ d v, ∃ n, namei (w_fs v) (parts d) = Ok n ∧ i_kind n = Dir)
              directories (λ directory, Path_mkdir directory true true))
    with (w := w) (w' := w1) (x := ".github/workflows"%string)
    as (n & Hn%namei_lookup & _).
  - apply Path_mkdir_grows.
  - intros x v v' _ Hx. unfold Path_mkdir in Hx. by eapply Path_mkdir_rec_Ok.
  - intros x v v' (m & Hm & Hk) G. exists m. split; [|done].
    eapply namei_mono; [apply G|done].
  - done.
  - apply (bool_decide_unpack _). vm_compute. exact I.
  - congruence.
Qed.

(** C1, as the specification words it, fails: an empty working directory
    is not enough.  In [umask_222_world], an empty directory of mode
    [0o755] under umask [0o222], the run is aborted and
    [.github/workflows] does not exist afterwards. *)
Lemma empty_directory_is_not_enough : ¬ scaffolds_every_empty_directory.
Proof.
  intros Hspec.
  destruct (unusable_umask_aborts umask_222_world (Inode Dir (oct 7 5 5) true))
    as (e & w' & Hrun & Hnone); [reflexivity|by vm_compute|].
  destruct (Hspec umask_222_world (Raise e) w') as (Hdirs & _).
  - exists (Inode Dir (oct 7 5 5) true). split; [reflexivity|by vm_compute].
  - exact Hrun.
  - destruct (Hdirs ".github/workflows"%string) as (n & Hn%namei_lookup & _).
    + apply (bool_decide_unpack _). vm_compute. exact I.
    + congruence.
Qed.
